(** * GM2Calc loop functions: a shallow embedding of [gm2_ffunctions.cpp]

    The C++ translation unit works on IEEE 754 binary64 numbers.  A
    [double] is embedded as a primitive [float]; every arithmetic
    operator, comparison, [std::sqrt] and [std::fabs] is the correctly
    rounded primitive of the same name, so each function below evaluates
    on concrete inputs.  Expressions keep the C++ parse (left to right,
    unary minus before [*] and [/]) and integer literals are promoted to
    the [double] of the same value.

    Two revisions of the translation unit are in the repository: the
    library source [src/gm2_ffunctions.cpp] (module [Ffunctions]) and an
    older copy of it (module [FfunctionsOld]).  The two-loop translation
    units of the general THDM that call the loop functions are the
    modules [TwoLoopB] and [TwoLoopF]. *)

From Stdlib Require Import ZArith Bool List String Lia Floats Permutation.
From ExtLib Require Import Structures.Monad Structures.MonadState.
From ExtLib Require Import Data.Monads.StateMonad.
Import ListNotations MonadNotation.

#[local] Set Warnings "-inexact-float".
#[local] Open Scope monad_scope.
#[local] Open Scope float_scope.

(** ** External numerical routines

    [std::log], [std::acos], [std::asin], [std::atan2] and [std::pow]
    come from the C library, [dilog] and [clausen_2] from
    [gm2_dilog.hpp]; none of them is defined in the translation unit,
    so they are the operations of an interface.  The law recorded is
    the pole of the logarithm, [log(+-0) = -inf] (C11, F.10.3.7). *)

Class Libm : Type := {
  log : float -> float;
  acos : float -> float;
  asin : float -> float;
  atan2 : float -> float -> float;
  pow : float -> float -> float;
  dilog : float -> float;
  clausen_2 : float -> float;
  log_zero : log 0 = neg_infinity;
  log_neg_zero : log neg_zero = neg_infinity
}.

(** A coarse instance of the interface: exact at the IEEE special
    points of the logarithm, leading term of the usual series
    elsewhere.  It shows that the interface is inhabited and is the
    instance at which closed examples are evaluated; every general
    theorem is stated for an arbitrary instance. *)

Definition coarse_log (x : float) : float :=
  if x =? 0 then neg_infinity
  else if x <? 0 then nan
  else if x =? infinity then infinity
  else 2 * ((x - 1) / (x + 1)).

Definition coarse_pi_2 : float := 1.5707963267948966.

Definition coarse_libm : Libm := {|
  log := coarse_log;
  acos := fun x => coarse_pi_2 - x;
  asin := fun x => x;
  atan2 := fun y x => y / x;
  pow := fun x _ => sqrt (sqrt x);
  dilog := fun x => x;
  clausen_2 := fun t => t * (1 - coarse_log (abs t));
  log_zero := eq_refl;
  log_neg_zero := eq_refl
|}.

(** ** The diagnostic stream

    The side channel on which errors are reported is the list of the
    messages written so far, threaded as the state of a state monad.
    A function that can report has its result in [Diag]. *)

Definition Diag : Type -> Type := state (list string).

(** Modelled from the spec: the macro [ERROR] of [gm2_log.hpp] is not
    part of the sources at hand; a domain violation is "reported via a
    side-channel diagnostic".  [ERROR msg] appends [msg] to the stream
    and nothing else touches it. *)
Definition ERROR (msg : string) : Diag unit :=
  modify (fun out => out ++ [msg])%list ;; ret tt.

(** [std::numeric_limits<double>::quiet_NaN()] *)
Definition quiet_NaN : float := nan.

(** [std::numeric_limits<double>::epsilon()], i.e. 2^-52 *)
Definition DBL_EPSILON : float := 0x1p-52.

(** [x > y] on doubles *)
Definition gtb (x y : float) : bool := y <? x.
(** [x >= y] on doubles *)
Definition geb (x y : float) : bool := y <=? x.

(** [std::max(a, b)]: [(a < b) ? b : a] *)
Definition fmax (a b : float) : float := if a <? b then b else a.

(** ** [src/gm2_ffunctions.cpp] *)

Module Ffunctions.
Section WithLibm.
Context {L : Libm}.

Definition eps : float := 10.0 * DBL_EPSILON.
Definition qdrt_eps : float := pow eps 0.25.

(** returns number squared *)
Definition sqr (x : float) : float := x * x.
(** returns number cubed *)
Definition pow3 (x : float) : float := x * x * x.
(** returns number to the power 4 *)
Definition pow4 (x : float) : float := sqr (sqr x).

Definition is_zero (a prec : float) : bool := abs a <? prec.

Definition is_equal (a b prec : float) : bool :=
  let max := fmax (abs a) (abs b) in
  is_zero (a - b) (prec * (1.0 + max)).

(** [sort(double&, double&)]: the pair after the call *)
Definition sort2 (x y : float) : float * float :=
  if gtb x y then (y, x) else (x, y).

(** [sort(double&, double&, double&)]: the triple after the call *)
Definition sort3 (x y z : float) : float * float * float :=
  let '(x, y) := if gtb x y then (y, x) else (x, y) in
  let '(y, z) := if gtb y z then (z, y) else (y, z) in
  let '(x, y) := if gtb x y then (y, x) else (x, y) in
  (x, y, z).

(** lambda^2(u,v) *)
Definition lambda_2 (u v : float) : float := sqr (1 - u - v) - 4 * u * v.

Definition l00 (u v : float) : float :=
  v * (1 + u * (1 + u * (1 + u))
       + v * (u * (1 + u * (3 + 6 * u)) + u * (1 + u * (6 + 20 * u)) * v)).

Definition l0v (u v : float) : float :=
  let a := 1 - v in
  let a2 := a * a in
  let a3 := a2 * a in
  u * (0.5 * (1 + (1 + v) / a) + u * (v + u * v * (1 + v) / a2) / a3).

Definition lv0 (u v : float) : float :=
  let a := 1 - v in
  let a2 := a * a in
  let a3 := a2 * a in
  v + u * (0.5 * (-1 + (1 + v) / a) + u * (v + u * v * (1 + v) / a2) / a3).

(** returns tuple (0.5*(1 - lambda + u - v), 0.5*(1 - lambda - u + v)) *)
Definition luv (lambda u v : float) : float * float :=
  if v <? qdrt_eps then (l00 u v, l00 v u)
  else if u <? qdrt_eps then (l0v u v, lv0 u v)
  else (0.5 * (1 - lambda + u - v), 0.5 * (1 - lambda - u + v)).

(** u < 1 && v < 1, lambda^2(u,v) > 0 *)
Definition phi_pos (u v : float) : float :=
  if is_equal u 1.0 eps && is_equal v 1.0 eps then 2.343907238689459
  else
    let pi23 := 3.2898681336964529 in
    let lambda := sqrt (lambda_2 u v) in
    if is_equal u v eps then
      let x := if u <? qdrt_eps then u * (1 + u * (1 + u * (2 + 5 * u)))
               else 0.5 * (1 - lambda) in
      (- sqr (log u) + 2 * sqr (log x) - 4 * dilog x + pi23) / lambda
    else
      let '(x, y) := luv lambda u v in
      (- log u * log v + 2 * log x * log y
       - 2 * dilog x - 2 * dilog y + pi23) / lambda.

(** clausen_2(2*acos(x)) *)
Definition cl2acos (x : float) : float := clausen_2 (2 * acos x).

(** lambda^2(u,v) < 0, u = 1 *)
Definition phi_neg_1v (v : float) : float :=
  2 * (cl2acos (1 - 0.5 * v) + 2 * cl2acos (0.5 * sqrt v)).

(** lambda^2(u,v) < 0 *)
Definition phi_neg (u v : float) : float :=
  if is_equal u 1.0 eps && is_equal v 1.0 eps then 2.343907238689459
  else
    let lambda := sqrt (- lambda_2 u v) in
    if is_equal u v eps then
      4 * clausen_2 (2 * asin (sqrt (0.25 / u))) / lambda
    else if is_equal u 1.0 eps then phi_neg_1v v / lambda
    else if is_equal v 1.0 eps then phi_neg_1v u / lambda
    else
      let sqrtu := sqrt u in
      let sqrtv := sqrt v in
      2 * (cl2acos (0.5 * (1 + u - v) / sqrtu)
           + cl2acos (0.5 * (1 - u + v) / sqrtv)
           + cl2acos (0.5 * (-1 + u + v) / (sqrtu * sqrtv))) / lambda.

(** Phi(u,v) with u = x/z, v = y/z *)
Definition phi_uv (u v : float) : float :=
  let lambda := lambda_2 u v in
  if is_zero lambda eps then 0.0
  else if gtb lambda 0 then
    if (u <=? 1) && (v <=? 1) then phi_pos u v
    else
      let vou := v / u in
      if geb u 1 && (vou <=? 1) then
        let oou := 1 / u in
        phi_pos oou vou * oou
      else
        let oov := 1 / v in
        phi_pos oov (1 / vou) * oov
  else phi_neg u v.

Definition F1C (x : float) : float :=
  if is_zero x eps then 4.0
  else
    let d := x - 1.0 in
    if is_equal x 1.0 0.03 then
      1.0 + d * (-0.6 + d * (0.4 + d * (-2.0 / 7.0
        + d * (3.0 / 14.0 + d * (-1.0 / 6.0
        + 2.0 / 15.0 * d)))))
    else
      2.0 / pow4 d * (2.0 + x * (3.0 + 6.0 * log x + x * (-6.0 + x))).

Definition F2C (x : float) : float :=
  if is_zero x eps then 0.0
  else if is_equal x 1.0 0.03 then
    let d := x - 1.0 in
    1.0 + d * (-0.75 + d * (0.6 + d * (-0.5 + d * (3.0 / 7.0
      + d * (-0.375 + 1.0 / 3.0 * d)))))
  else
    3.0 / (2.0 * pow3 (1.0 - x)) * (-3.0 - 2.0 * log x + x * (4.0 - x)).

Definition F3C (x : float) : float :=
  let d := x - 1.0 in
  if is_equal x 1.0 0.03 then
    1.0
    + d * (1059.0 / 1175.0
    + d * (-4313.0 / 3525.0
    + d * (70701.0 / 57575.0
    + d * (-265541.0 / 230300.0
    + d * (48919.0 / 46060.0
    - 80755.0 / 82908.0 * d)))))
  else
    let lx := log x in
    let x2 := sqr x in
    4.0 / (141.0 * pow4 d) * (
      (1.0 - x) * (151.0 * x2 - 335.0 * x + 592.0)
      + 6.0 * (21.0 * pow3 x - 108.0 * x2 - 93.0 * x + 50.0) * lx
      - 54.0 * x * (x2 - 2.0 * x - 2.0) * sqr lx
      - 108.0 * x * (x2 - 2.0 * x + 12.0) * dilog (1.0 - x)).

Definition F4C (x : float) : float :=
  if is_zero x eps then 0.0
  else if is_equal x 1.0 0.03 then
    let d := x - 1.0 in
    1.0
    + d * (-45.0 / 122.0
    + d * (941.0 / 6100.0
    + d * (-17.0 / 305.0
    + d * (282.0 / 74725.0
    + d * (177.0 / 6832.0 - 47021.0 / 1076040.0 * d)))))
  else
    let lx := log x in
    let x2 := sqr x in
    -9.0 / (122.0 * pow3 (1.0 - x)) * (
      8.0 * (x2 - 3.0 * x + 2.0)
      + (11.0 * x2 - 40.0 * x + 5.0) * lx
      - 2.0 * (x2 - 2.0 * x - 2.0) * sqr lx
      - 4.0 * (x2 - 2.0 * x + 9.0) * dilog (1.0 - x)).

Definition F1N (x : float) : float :=
  if is_zero x eps then 2.0
  else
    let d := x - 1.0 in
    if is_equal x 1.0 0.03 then
      1.0 + d * (-0.4 + d * (0.2 + d * (-4.0 / 35.0
        + d * (1.0 / 14.0 + d * (-1.0 / 21.0 + 1.0 / 30.0 * d)))))
    else
      2.0 / pow4 d
      * (1.0 + x * (-6.0 + x * (3.0 - 6.0 * log x + 2.0 * x))).

Definition F2N (x : float) : float :=
  if is_zero x eps then 3.0
  else if is_equal x 1.0 0.04 then
    let d := x - 1.0 in
    1.0 + d * (-0.5 + d * (0.3 + d * (-0.2
      + d * (1.0 / 7.0 + d * (-3.0 / 28.0 + 1.0 / 12.0 * d)))))
  else
    3.0 / pow3 (1.0 - x) * (1.0 + x * (2.0 * log x - x)).

Definition F3N (x : float) : float :=
  if is_zero x eps then 8.0 / 105.0
  else
    let d := x - 1.0 in
    if is_equal x 1.0 0.03 then
      1.0 + d * (76 / 875.0 + d * (-431 / 2625.0 + d * (5858 / 42875.0
        + d * (-3561 / 34300.0 + d * (23 / 294.0 - 4381 / 73500.0 * d)))))
    else
      let x2 := sqr x in
      4.0 / 105.0 / pow4 d * (
        (1.0 - x) * (-97.0 * x2 - 529.0 * x + 2.0)
        + 6.0 * x2 * (13.0 * x + 81.0) * log x
        + 108.0 * x * (7.0 * x + 4.0) * dilog (1.0 - x)).

Definition F4N (x : float) : float :=
  let PI2 := 9.8696044010893586 in
  if is_zero x eps then -3.0 / 4.0 * (-9.0 + PI2)
  else if is_equal x 1.0 0.03 then
    let d := x - 1.0 in
    1.0 + sqr d * (-111.0 / 800.0 + d * (59.0 / 400.0 + d * (-129.0 / 980.0
      + d * (177.0 / 1568.0 - 775.0 / 8064.0 * d))))
  else
    -2.25 / pow3 (1.0 - x) * (
      (x + 3.0) * (x * log x + x - 1.0)
      + (6.0 * x + 2.0) * dilog (1.0 - x)).

Definition G3 (x : float) : float :=
  if is_equal x 1.0 0.01 then
    let d := x - 1.0 in
    1.0 / 3.0 + d * (-0.25 + d * (0.2 + (-1.0 / 6.0 + d / 7.0) * d))
  else
    1.0 / (2.0 * pow3 (x - 1.0)) * ((x - 1.0) * (x - 3.0) + 2.0 * log x).

Definition G4 (x : float) : float :=
  if is_equal x 1.0 0.01 then
    let d := x - 1.0 in
    1.0 / 6.0 + d * (-1.0 / 12.0 + d * (0.05 + (-1.0 / 30.0 + d / 42.0) * d))
  else
    1.0 / (2.0 * pow3 (x - 1.0)) * ((x - 1.0) * (x + 1.0) - 2.0 * x * log x).

(** Fb(1,1) *)
Definition Fb11 (x y : float) : float :=
  let x1 := x - 1.0 in
  let y1 := y - 1.0 in
  1.0 / 12.0 + (-0.05 + y1 / 30.0) * y1
  + x1 * (-0.05 + (1.0 / 30.0 - y1 / 42.0) * y1
  + x1 * (1.0 / 30.0 + (-1.0 / 42.0 + y1 / 56.0) * y1)).

(** Fb(x,1), x != 1, x != 0 *)
Definition Fb1 (x y : float) : float :=
  let x1 := x - 1.0 in
  let y1 := y - 1.0 in
  let lx := log x in
  let x14 := pow4 x1 in
  let x15 := x14 * x1 in
  let x16 := x15 * x1 in
  (2.0 + x * (3.0 + 6.0 * lx + x * (-6.0 + x))) / (6.0 * x14)
  + y1 * (3.0 + x * (10.0 + 12.0 * lx + x * (-18.0 + x * (6.0 - x))))
    / (12.0 * x15)
  + sqr y1 * (12.0 + x * (65.0 + 60.0 * lx + x * (-120.0
      + x * (60.0 + x * (-20.0 + 3.0 * x))))) / (60.0 * x16).

(** Fb(x,x), x != 1, x != 0 *)
Definition Fbx (x y : float) : float :=
  let x1 := x - 1.0 in
  let d := y - x in
  let lx := log x in
  let x14 := pow4 x1 in
  let x15 := x14 * x1 in
  let x16 := x15 * x1 in
  (-5.0 - 2.0 * lx + x * (4.0 - 4.0 * lx + x)) / (2.0 * x14)
  - d * (-1.0 + x * (-9.0 - 6.0 * lx + x * (9.0 - 6.0 * lx + x)))
    / (2.0 * x15 * x)
  - sqr d * (-1.0 + x * (12.0 + x * (36.0 + 36.0 * lx
      + x * (-44.0 + 24.0 * lx - 3.0 * x)))) / (6.0 * x16 * sqr x).

Definition Fb (x y : float) : Diag float :=
  if (x <? 0) || (y <? 0) then
    ERROR "Fb: x and y must not be negative!" ;;
    ret quiet_NaN
  else
    let '(x, y) := sort2 x y in
    if is_zero y eps then ret 0
    else if is_equal x 1.0 0.01 && is_equal y 1.0 0.01 then ret (Fb11 x y)
    else if is_equal x 1.0 0.01 then ret (Fb1 y x)
    else if is_equal y 1.0 0.01 then ret (Fb1 x y)
    else if is_equal x y 0.01 then ret (Fbx x y)
    else ret (- (G4 x - G4 y) / (x - y)).

(** Fa(1,1) *)
Definition Fa11 (x y : float) : float :=
  let x1 := x - 1.0 in
  let y1 := y - 1.0 in
  0.25 + (-0.2 + y1 / 6.0) * y1
  + x1 * (-0.2 + (1.0 / 6.0 - y1 / 7.0) * y1)
  + sqr x1 * (1.0 / 6.0 + (-1.0 / 7.0 + y1 / 8.0) * y1).

(** Fa(x,1), x != 1, x != 0 *)
Definition Fa1 (x y : float) : float :=
  let x1 := x - 1.0 in
  let y1 := y - 1.0 in
  let lx := log x in
  let x14 := pow4 x1 in
  let x15 := x14 * x1 in
  let x16 := x15 * x1 in
  (-11.0 - 6.0 * lx + x * (18.0 + x * (-9.0 + 2.0 * x))) / (6.0 * x14)
  + y1 * (-25.0 - 12.0 * lx + x * (48.0 + x * (-36.0
      + x * (16.0 - 3.0 * x)))) / (12.0 * x15)
  + sqr y1 * (-137.0 - 60.0 * lx + x * (300.0 + x * (-300.0
      + x * (200.0 + x * (-75.0 + 12.0 * x))))) / (60.0 * x16).

(** Fa(x,x), x != 1, x != 0 *)
Definition Fax (x y : float) : float :=
  let x1 := x - 1.0 in
  let d := y - x in
  let lx := log x in
  let x14 := pow4 x1 in
  let x15 := x14 * x1 in
  let x16 := x15 * x1 in
  let x2 := sqr x in
  let x3 := x2 * x in
  (2.0 + x * (3.0 + 6.0 * lx + x * (-6.0 + x))) / (2.0 * x14 * x)
  - d * (-1.0 + x * (8.0 + x * (12.0 * lx + x * (-8.0 + x))))
    / (2.0 * x15 * x2)
  - sqr d * (-2.0 + x * (15.0 + x * (-60.0 + x * (20.0 - 60.0 * lx
      + x * (30.0 - 3.0 * x))))) / (6.0 * x16 * x3).

Definition Fa (x y : float) : Diag float :=
  if (x <? 0) || (y <? 0) then
    ERROR "Fa: x and y must not be negative!" ;;
    ret quiet_NaN
  else
    let '(x, y) := sort2 x y in
    if is_zero y eps then ret 0
    else if is_equal x 1.0 0.001 && is_equal y 1.0 0.001 then ret (Fa11 x y)
    else if is_equal x 1.0 0.001 then ret (Fa1 y x)
    else if is_equal y 1.0 0.001 then ret (Fa1 x y)
    else if is_equal x y 0.001 then ret (Fax x y)
    else ret (- (G3 x - G3 y) / (x - y)).

(** Ixy(0,y), squared arguments, y != 0 *)
Definition I0y (y : float) : float :=
  if is_equal y 1 eps then
    let d := y - 1 in
    1 + d * (-0.5 + 1.0 / 3 * d)
  else log y / (y - 1).

(** I(x,y), squared arguments, x == 1, y != 0 *)
Definition I1y (x y : float) : float :=
  let dy := y - 1 in
  let dy2 := sqr dy in
  let dx := (x - 1) / dy2 in
  let y2 := sqr y in
  let yly := y * log y in
  (1 - y + yly) / dy2
  + dx * (0.5 - 0.5 * y2 + yly) / dy
  + sqr dx * (1.0 / 3 + 0.5 * y + yly + y2 * (1.0 / 6 * y - 1)).

(** I(x,y), squared arguments, x == y, x != 0, y != 0 *)
Definition Ixx (x y : float) : float :=
  let eps_eq := 0.001 in
  if is_equal y 1 eps_eq then
    let dx := x - 1 in
    let dy := y - 1 in
    let dy2 := sqr dy in
    0.5 + dx * (-1.0 / 6 + 1.0 / 12 * dy - 1.0 / 20 * dy2)
    + sqr dx * (1.0 / 12 - 1.0 / 20 * dy + 1.0 / 30 * dy2)
    - 1.0 / 6 * dy + 1.0 / 12 * dy2
  else
    let y2 := sqr y in
    let dy := y - 1 in
    let dy2 := sqr dy in
    let dxy := (x - y) / dy2 in
    let ly := log y in
    (dy - ly) / dy2
    + dxy * (0.5 - 0.5 * y2 + y * ly) / (dy * y)
    + sqr dxy * (1.0 / 6 - y + y2 * (0.5 + 1.0 / 3 * y - ly)) / y2.

(** I(x,y), x < y, x and y are squared arguments *)
Definition Ixy (x y : float) : float :=
  let eps_eq := 0.001 in
  if is_zero y eps then 0
  else if is_zero x eps then I0y y
  else if is_equal (x / y) 1 eps_eq then Ixx x y
  else if is_equal x 1 eps_eq then I1y x y
  else if is_equal y 1 eps_eq then I1y y x
  else
    let lx := log x in
    let ly := log y in
    (x * (y - 1) * lx - y * (x - 1) * ly) / ((x - 1) * (x - y) * (y - 1)).

(** I(x,y,z), x, y and z are squared arguments *)
Definition Ixyz (x y z : float) : float :=
  let '(x, y, z) := sort3 x y z in
  if is_zero z eps then 0
  else Ixy (x / z) (y / z) / z.

Definition Iabc (a b c : float) : float := Ixyz (sqr a) (sqr b) (sqr c).

(** f_PS(z), Eq (70) arXiv:hep-ph/0609168 *)
Definition f_PS (z : float) : Diag float :=
  if z <? 0.0 then
    ERROR "f_PS: z must not be negative!" ;;
    ret quiet_NaN
  else if z =? 0.0 then ret 0.0
  else if z <? 0.25 then
    let y := sqrt (1 - 4 * z) in
    let c := -9.8696044010893586 in
    let q := (1 + y) / (1 - y) in
    let lq := log q in
    ret (z / y * (4 * dilog (1 + q) - lq * (2 * log z - lq) + c))
  else if z =? 0.25 then ret 1.3862943611198906
  else
    let y := sqrt (-1 + 4 * z) in
    let theta := atan2 y (2 * z - 1) in
    ret (4 * z / y * clausen_2 theta).

(** f_S(z), Eq (71) arXiv:hep-ph/0609168 *)
Definition f_S (z : float) : Diag float :=
  if z <? 0.0 then
    ERROR "f_S: z must not be negative!" ;;
    ret quiet_NaN
  else if z =? 0.0 then ret 0.0
  else
    fps <- f_PS z ;;
    ret ((2 * z - 1) * fps - 2 * z * (2 + log z)).

(** f_sferm(z), Eq (72) arXiv:hep-ph/0609168 *)
Definition f_sferm (z : float) : Diag float :=
  if z <? 0.0 then
    ERROR "f_sferm: z must not be negative!" ;;
    ret quiet_NaN
  else if z =? 0.0 then ret 0.0
  else
    fps <- f_PS z ;;
    ret (0.5 * z * (2 + log z - fps)).

(** F_1(w), Eq (25) arxiv:1502.04199 *)
Definition F1 (w : float) : Diag float :=
  if w <? 0.0 then
    ERROR "F1: w must not be negative!" ;;
    ret quiet_NaN
  else if w =? 0.0 then ret 0.0
  else if w =? 0.25 then ret (-0.5)
  else
    fps <- f_PS w ;;
    ret ((w - 0.5) * fps - w * (2 + log w)).

(** F~_1(w), Eq (26) arxiv:1502.04199 *)
Definition F1t (w : float) : Diag float :=
  fps <- f_PS w ;;
  ret (0.5 * fps).

(** F_2(w), Eq (27) arxiv:1502.04199 *)
Definition F2 (w : float) : Diag float :=
  if w <? 0.0 then
    ERROR "F2: w must not be negative!" ;;
    ret quiet_NaN
  else if w =? 0.25 then ret (-0.38629436111989062)
  else
    fps <- f_PS w ;;
    ret (1 + 0.5 * (log w - fps)).

(** F_3(w), Eq (28) arxiv:1502.04199 *)
Definition F3 (w : float) : Diag float :=
  if w <? 0.0 then
    ERROR "F3: w must not be negative!" ;;
    ret quiet_NaN
  else if w =? 0.25 then ret (19.0 / 4.0)
  else
    fps <- f_PS w ;;
    ret ((0.5 + 7.5 * w) * (2 + log w) + (4.25 - 7.5 * w) * fps).

(** Kallen lambda function lambda^2(x,y,z) of three squared masses (the
    three-argument overload of [lambda_2]) *)
Definition lambda_2_xyz (x y z : float) : float :=
  z * z * lambda_2 (x / z) (y / z).

(** Phi(x,y,z); x, y and z are squared masses *)
Definition Phi (x y z : float) : float :=
  let '(x, y, z) := sort3 x y z in
  let u := x / z in
  let v := y / z in
  phi_uv u v * z * lambda_2 u v / 2.

End WithLibm.
End Ffunctions.

(** ** The older copy of [gm2_ffunctions.cpp]

    [sqr], [pow3], [pow4], [is_zero], [is_equal], the three-argument
    [sort], [lambda_2], [Fa11], [Fa1], [Fax], [Fb11], [Fb1], [Fbx], [G3]
    and [G4] read the same in both revisions and are shared with
    [Ffunctions]; the functions below are the ones that differ. *)

Module FfunctionsOld.
Import Ffunctions.
Section WithLibm.
Context {L : Libm}.

(** [boost::numeric::odeint::integrate(f, x0, start, stop, dt)] for a
    one-component state: [Some] of the final state, or [None] when the
    stepper throws. *)
Variable odeint_integrate :
  (float -> float -> float) -> float -> float -> float -> float -> option float.

Definition eps : float := 10.0 * DBL_EPSILON.

(** conversion of an [int] to [double] *)
Definition double_of_int (n : Z) : float :=
  if (n <? 0)%Z then - of_uint63 (Uint63.of_Z (- n))
  else of_uint63 (Uint63.of_Z n).

Definition integrate (f : float -> float) (start stop dt : float)
  : option float :=
  let f' := fun (_ : float) (x : float) => f x in
  let x0 := start in
  odeint_integrate f' x0 start stop dt.

(** u < 1 && v < 1, lambda^2(u,v) > 0 *)
Definition phi_pos (u v : float) : float :=
  let eps := 1.0e-7 in
  if is_equal u 1.0 eps && is_equal v 1.0 eps then 2.343907238689459
  else
    let Pi := 3.141592653589793 in
    let lambda := sqrt (lambda_2 u v) in
    if is_equal u v eps then
      (- (sqr (log u))
       + 2 * sqr (log ((1 - lambda) / 2.0))
       - 4 * dilog ((1 - lambda) / 2.0)
       + sqr Pi / 3.0) / lambda
    else
      (- (log u * log v)
       + 2 * log ((1 - lambda + u - v) / 2.0) * log ((1 - lambda - u + v) / 2.0)
       - 2 * dilog ((1 - lambda + u - v) / 2.0)
       - 2 * dilog ((1 - lambda - u + v) / 2.0)
       + sqr Pi / 3.0) / lambda.

(** lambda^2(u,v) < 0, u = 1 *)
Definition phi_neg_1v (v lambda : float) : float :=
  2 * (clausen_2 (2 * acos ((2 - v) / 2))
       + 2 * clausen_2 (2 * acos (0.5 * sqrt v))) / lambda.

(** lambda^2(u,v) < 0 *)
Definition phi_neg (u v : float) : float :=
  let eps := 1.0e-7 in
  if is_equal u 1.0 eps && is_equal v 1.0 eps then 2.343907238689459
  else
    let lambda := sqrt (- lambda_2 u v) in
    if is_equal u 1.0 eps then phi_neg_1v v lambda
    else if is_equal v 1.0 eps then phi_neg_1v u lambda
    else if is_equal u v eps then
      2 * (2 * clausen_2 (2 * acos (1 / (2.0 * sqrt u)))
           + clausen_2 (2 * acos ((-1 + 2 * u) / (2.0 * abs u)))) / lambda
    else
      let sqrtu := sqrt u in
      let sqrtv := sqrt v in
      2 * (clausen_2 (2 * acos (0.5 * (1 + u - v) / sqrtu))
           + clausen_2 (2 * acos (0.5 * (1 - u + v) / sqrtv))
           + clausen_2 (2 * acos (0.5 * (-1 + u + v) / (sqrtu * sqrtv))))
      / lambda.

(** Phi(u,v) with u = x/z, v = y/z *)
Definition phi_uv (u v : float) : float :=
  let lambda := lambda_2 u v in
  if is_zero lambda 1e-11 then 0.0
  else if gtb lambda 0 then
    if (u <=? 1) && (v <=? 1) then phi_pos u v
    else if geb u 1 && (v / u <=? 1) then phi_pos (1.0 / u) (v / u) / u
    else phi_pos (1.0 / v) (u / v) / v
  else phi_neg u v.

Definition Fb (x y : float) : float :=
  if (is_zero x eps && is_zero y eps) || is_zero x eps || is_zero y eps
  then 0.0
  else if is_equal x 1.0 0.01 && is_equal y 1.0 0.01 then Fb11 x y
  else if is_equal x 1.0 0.01 then Fb1 y x
  else if is_equal y 1.0 0.01 then Fb1 x y
  else if is_equal x y 0.01 then Fbx x y
  else - (G4 x - G4 y) / (x - y).

Definition Fa (x y : float) : float :=
  if (is_zero x eps && is_zero y eps) || is_zero x eps || is_zero y eps
  then 0.0
  else if is_equal x 1.0 0.001 && is_equal y 1.0 0.001 then Fa11 x y
  else if is_equal x 1.0 0.001 then Fa1 y x
  else if is_equal y 1.0 0.001 then Fa1 x y
  else if is_equal x y 0.001 then Fax x y
  else - (G3 x - G3 y) / (x - y).

Definition G (wa wb x : float) : float :=
  log ((wa * x + wb * (1 - x)) / (x * (1 - x)))
  / (x * (1 - x) - wa * x - wb * (1 - x)).

(** [res] is initialised to NaN; the value of [integrate] is dropped
    and an exception is swallowed by [catch (...)]. *)
Definition Gn (wa wb : float) (n : Z) : float :=
  let f := fun x => pow x (double_of_int n) * G wa wb x in
  let res := quiet_NaN in
  match integrate f (0.0 + eps) (1.0 - eps) eps with
  | Some _ => res
  | None => res
  end.

(** Phi(x,y,z); x, y and z are squared masses *)
Definition Phi (x y z : float) : float :=
  let '(x, y, z) := sort3 x y z in
  let u := x / z in
  let v := y / z in
  phi_uv u v * z * lambda_2 u v / 2.

End WithLibm.
End FfunctionsOld.

(** ** [src/GeneralTHDM/gm2_2loop_B.cpp]

    The bosonic two-loop contributions of the general THDM.  [Phi] is
    the one of the library source. *)

Module TwoLoopB.
Import Ffunctions.
Section WithLibm.
Context {L : Libm}.

Definition pi : float := 3.1415926535897932.

Definition sqr (x : float) : float := x * x.

(** Eq.(102), arxiv:1607.06292 *)
Definition YF1 (u w cw2 : float) : float :=
  let cw4 := cw2 * cw2 in
  - 72 * cw2 * (-1 + cw2) * (u + 2 * w) / u
  - 36 * cw2 * (-1 + cw2) * (u + 2 * w) / u * log w
  + 9 * (-8 * cw4 - 3 * u + 2 * cw2 * (4 + u)) * (u + 2 * w)
    / (2 * (u - 1) * u) * log u
  - 9 * (3 - 10 * cw2 + 8 * cw4) * w * (u + 2 * w)
    / ((4 * w - 1) * (u - 1)) * Phi w w 1
  + 9 * (8 * cw4 + 3 * u - 2 * cw2 * (4 + u)) * w * (u + 2 * w)
    / ((4 * w - u) * (u - 1) * u * u) * Phi w w w.

(** Eq.(99), arxiv:1607.06292 *)
Definition fb (u w al cw2 : float) : float :=
  al * pi / (cw2 * (-1.0 + cw2)) * (u + 2 * w).

(** Eq.(100), arxiv:1607.06292 *)
Definition Fm0 (u w al cw2 mm2 mz2 : float) : float :=
  let al2 := al * al in
  let cw4 := cw2 * cw2 in
  let sw2 := 1.0 - cw2 in
  let sw4 := sw2 * sw2 in
  al2 / (576 * sqr pi * cw4 * sw4) * mm2 / mz2
  * 1.0 / (al * pi) * YF1 u w cw2.

(** 2-loop bosonic pure electroweak contributions,
    Eq (49), arxiv:1607:06292 *)
Definition amu2L_B_EWadd (eta zetal : float) : float :=
  2.3e-11 * eta * zetal.

(** 2-loop bosonic non-Yukawa contributions, Eq (71), arxiv:1607:06292 *)
Definition amu2L_B_nonYuk : float := 0.0.

(** 2-loop bosonic Yukawa contributions, Eq (52), arxiv:1607:06292 *)
Definition amu2L_B_Yuk : float :=
  let tb := 1.0 in
  let zetal := 0.0 in
  let lambda5 := 0.0 in
  let eta := 0.0 in
  let al := 0.0 in
  let mhSM2 := 0.0 in
  let mHp2 := 0.0 in
  let mw2 := 0.0 in
  let mz2 := 0.0 in
  let mm2 := 0.0 in
  let cw2 := mw2 / mz2 in
  let xhSM := mhSM2 / mz2 in
  let xHp := mHp2 / mz2 in
  let a000 := fb xhSM xHp al cw2 * Fm0 xhSM xHp al cw2 mm2 mz2 in
  let a0z0 := 0.0 in
  let a500 := 0.0 in
  let a5z0 := 0.0 in
  let a001 := 0.0 in
  let a0z1 := 0.0 in
  let a501 := 0.0 in
  let a5z1 := 0.0 in
  let res :=
    a000
    + a0z0 * (tb - 1.0 / tb) * zetal
    + a500 * lambda5
    + a5z0 * (tb - 1.0 / tb) * lambda5 * zetal
    + (a001 * (tb - 1.0 / tb)
       + a0z1 * zetal
       + a501 * (tb - 1.0 / tb) * lambda5
       + a5z1 * lambda5 * zetal) * eta in
  res.

End WithLibm.
End TwoLoopB.

(** ** [gm2_2loop_F.cpp], the second part of [src/GeneralTHDM/gm2_2loop.cpp]

    The fermionic two-loop contributions of the general THDM.  The
    function objects handed to the templates [fSgamma], [fSZ] and [ffS]
    are functions [float -> float -> float]. *)

Module TwoLoopF.
Import Ffunctions.

Record THDM_parameters : Type := {
  alpha : float;  (** alpha_em *)
  mm : float;     (** muon mass *)
  mw : float;     (** W boson mass *)
  mz : float      (** Z boson mass *)
}.

(** a default-initialised [THDM_parameters]: every member is [double{}] *)
Definition THDM_parameters_default : THDM_parameters :=
  {| alpha := 0; mm := 0; mw := 0; mz := 0 |}.

Record F_neut_pars : Type := {
  mf2 : float;  (** squared mass of fermion f *)
  qf : float;   (** electromagnetic charge of fermion f *)
  ql : float;   (** electromagnetic charge of fermion l *)
  t3f : float;  (** SU(2)_L charge of fermion f *)
  t3l : float;  (** SU(2)_L charge of fermion l *)
  nc : float    (** number of colors of fermion f *)
}.

Section WithLibm.
Context {L : Libm}.

Definition pi : float := 3.1415926535897932.
Definition q_u : float := 2.0 / 3.0.
Definition q_d : float := -1.0 / 3.0.
Definition q_l : float := -1.0.
Definition t3_u : float := 1.0.
Definition t3_d : float := -1.0.
Definition t3_l : float := -1.0.

Definition sqr (x : float) : float := x * x.

(** Eq (56), arxiv:1607.06292, S = h or H *)
Definition FS (ms2 mf2 : float) : float :=
  -2.0 + log (ms2 / mf2)
  - (ms2 - 2 * mf2) / ms2 * Phi ms2 mf2 mf2 / (ms2 - 4 * mf2).

(** Eq (57), arxiv:1607.06292, S = A *)
Definition FA (ms2 mf2 : float) : float :=
  Phi ms2 mf2 mf2 / (ms2 - 4 * mf2).

(** Eq (54), arxiv:1607.06292, S = h or H *)
Definition fSgamma (ms2 : float) (pars : F_neut_pars)
    (thdm : THDM_parameters) (fS : float -> float -> float) : float :=
  let al2 := sqr (alpha thdm) in
  let mm2 := sqr (mm thdm) in
  let mw2 := sqr (mw thdm) in
  let mz2 := sqr (mz thdm) in
  let sw2 := 1.0 - mw2 / mz2 in
  let mf2 := mf2 pars in
  let qf2 := sqr (qf pars) in
  let nc := nc pars in
  al2 * mm2 / (4 * sqr pi * mw2 * sw2) * qf2 * nc * mf2 / ms2 * fS ms2 mf2.

(** Eq (55), arxiv:1607.06292, S = h or H *)
Definition fSZ (ms2 : float) (pars : F_neut_pars)
    (thdm : THDM_parameters) (fS : float -> float -> float) : float :=
  let al2 := sqr (alpha thdm) in
  let mm2 := sqr (mm thdm) in
  let mw2 := sqr (mw thdm) in
  let mz2 := sqr (mz thdm) in
  let cw2 := mw2 / mz2 in
  let sw2 := 1.0 - cw2 in
  let mf2 := mf2 pars in
  let qf := qf pars in
  let ql := ql pars in
  let nc := nc pars in
  let gvf := 0.5 * t3f pars - qf * sw2 in
  let gvl := 0.5 * t3l pars - ql * sw2 in
  al2 * mm2 / (4 * sqr pi * mw2 * sw2) * (- nc * qf * gvl * gvf) / (sw2 * cw2)
  * mf2 / (ms2 - mz2) * (fS ms2 mf2 - fS mz2 mf2).

(** Eq (53), arxiv:1607.06292, S = h or H *)
Definition ffS (ms2 : float) (pars : F_neut_pars)
    (thdm : THDM_parameters) (fS : float -> float -> float) : float :=
  fSgamma ms2 pars thdm fS + fSZ ms2 pars thdm fS.

(** Eq (60), arxiv:1607.06292 *)
Definition FlHp (ms2 mf2 : float) : float :=
  let xl := mf2 / ms2 in
  xl + xl * (xl - 1.0) * (dilog (1.0 - 1.0 / xl) - sqr pi / 6)
  + (xl - 0.5) * log xl.

(** Eq (61), arxiv:1607.06292 *)
Definition FdHp (ms2 md2 mu2 qd qu : float) : float :=
  let xu := mu2 / ms2 in
  let xd := md2 / ms2 in
  let sqrt_xu := sqrt xu in
  let sqrt_xd := sqrt xd in
  let y := sqr (xu - xd) - 2 * (xu + xd) + 1.0 in
  let s := 0.25 * (qu + qd) in
  let c := sqr (xu - xd) - qu * xu + qd * xd in
  let cbar := (xu - qu) * xu - (xd + qd) * xd in
  - (xu - xd) + (cbar / y - c * (xu - xd) / y) * Phi sqrt_xd sqrt_xu 1.0
  + c * (dilog (1.0 - xd / xu)
         - 0.5 * log xu * log (xd / xu) * Phi sqrt_xd sqrt_xu 1.0)
  + (s + xd) * log xd + (s - xu) * log xu.

(** Eq (62), arxiv:1607.06292 *)
Definition FuHp (ms2 md2 mu2 qd qu : float) : float :=
  let xu := mu2 / ms2 in
  let xd := md2 / ms2 in
  let sqrt_xu := sqrt xu in
  let sqrt_xd := sqrt xd in
  let y := sqr (xu - xd) - 2 * (xu + xd) + 1.0 in
  FdHp ms2 md2 mu2 (2.0 + qd) (2.0 + qu)
  - 4.0 / 3.0 * (xu - xd - 1.0) / y * Phi sqrt_xd sqrt_xu 1.0
  - 1.0 / 3.0 * (sqr (log xd) - sqr (log xu)).

(** Eq (59), arxiv:1607.06292, S = H^+-, f = l *)
Definition flHp (ms2 mf2 : float) (thdm : THDM_parameters) : float :=
  let al2 := sqr (alpha thdm) in
  let mm2 := sqr (mm thdm) in
  let mw2 := sqr (mw thdm) in
  let mz2 := sqr (mz thdm) in
  let cw2 := mw2 / mz2 in
  let sw2 := 1.0 - cw2 in
  let sw4 := sqr sw2 in
  let nc := 1.0 in
  al2 * mm2 / (32 * sqr pi * mw2 * sw4) * nc * mf2 / (ms2 - mw2)
  * (FlHp ms2 mf2 - FlHp mw2 mf2).

(** Eq (59), arxiv:1607.06292, S = H^+-, f = u *)
Definition fuHp (ms2 md2 mu2 qd qu : float) (thdm : THDM_parameters)
  : float :=
  let al2 := sqr (alpha thdm) in
  let mm2 := sqr (mm thdm) in
  let mw2 := sqr (mw thdm) in
  let mz2 := sqr (mz thdm) in
  let cw2 := mw2 / mz2 in
  let sw2 := 1.0 - cw2 in
  let sw4 := sqr sw2 in
  let nc := 3.0 in
  al2 * mm2 / (32 * sqr pi * mw2 * sw4) * nc * mu2 / (ms2 - mw2)
  * (FuHp ms2 md2 mu2 qd qu - FuHp mw2 md2 mu2 qd qu).

(** Eq (59), arxiv:1607.06292, S = H^+-, f = d *)
Definition fdHp (ms2 md2 mu2 qd qu : float) (thdm : THDM_parameters)
  : float :=
  let al2 := sqr (alpha thdm) in
  let mm2 := sqr (mm thdm) in
  let mw2 := sqr (mw thdm) in
  let mz2 := sqr (mz thdm) in
  let cw2 := mw2 / mz2 in
  let sw2 := 1.0 - cw2 in
  let sw4 := sqr sw2 in
  let nc := 3.0 in
  al2 * mm2 / (32 * sqr pi * mw2 * sw4) * nc * md2 / (ms2 - mw2)
  * (FdHp ms2 md2 mu2 qd qu - FdHp mw2 md2 mu2 qd qu).

(** 2-loop fermionic contributions, Eq (63), arxiv:1607:06292.  The
    accumulator [res] of the source is rebound after each [+=], [-=]. *)
Definition amu2L_F : float :=
  let thdm := THDM_parameters_default in
  let mu2 := 0 in let md2 := 0 in let ml2 := 0 in
  let mh2 := 0 in let mH2 := 0 in let mA2 := 0 in
  let mHp2 := 0 in let mhSM2 := 0 in
  let yuh := 0 in let ydh := 0 in let ylh := 0 in
  let yuH := 0 in let ydH := 0 in let ylH := 0 in
  let yuA := 0 in let ydA := 0 in let ylA := 0 in
  let pars_u := {| mf2 := mu2; qf := q_u; ql := q_l;
                   t3f := t3_u; t3l := t3_l; nc := 3.0 |} in
  let pars_d := {| mf2 := md2; qf := q_d; ql := q_l;
                   t3f := t3_d; t3l := t3_l; nc := 3.0 |} in
  let pars_l := {| mf2 := ml2; qf := q_l; ql := q_l;
                   t3f := t3_l; t3l := t3_l; nc := 1.0 |} in
  let lFS := fun ms2 mf2 => FS ms2 mf2 in
  let lFA := fun ms2 mf2 => FA ms2 mf2 in
  let res := 0.0 in
  (* h *)
  let res := res + ffS mh2 pars_u thdm lFS * yuh * ylh in
  let res := res + ffS mh2 pars_d thdm lFS * ydh * ylh in
  let res := res + ffS mh2 pars_l thdm lFS * ylh * ylh in
  (* H *)
  let res := res + ffS mH2 pars_u thdm lFS * yuH * ylH in
  let res := res + ffS mH2 pars_d thdm lFS * ydH * ylH in
  let res := res + ffS mH2 pars_l thdm lFS * ylH * ylH in
  (* A *)
  let res := res + ffS mA2 pars_u thdm lFA * yuA * ylA in
  let res := res + ffS mA2 pars_d thdm lFA * ydA * ylA in
  let res := res + ffS mA2 pars_l thdm lFA * ylA * ylA in
  (* H^+- *)
  let res := res + fuHp mHp2 md2 mu2 q_d q_u thdm * yuA * ylA in
  let res := res + fdHp mHp2 md2 mu2 q_d q_u thdm * ydA * ylA in
  let res := res + flHp mHp2 ml2 thdm * ylA * ylA in
  (* subtract hSM *)
  let res := res - ffS mhSM2 pars_u thdm lFS in
  let res := res - ffS mhSM2 pars_d thdm lFS in
  let res := res - ffS mhSM2 pars_l thdm lFS in
  res.

End WithLibm.
End TwoLoopF.

(** * Vocabulary of the statements *)

(** an ordinary non-negative double: +0, a positive subnormal or normal
    number, or +inf (sign bit clear, not a NaN) *)
Definition nonneg (x : float) : bool :=
  match classify x with
  | PZero | PSubn | PNormal | PInf => true
  | _ => false
  end.

(** equal as doubles: the same value, or equal under [operator==]
    (which identifies +0 and -0) *)
Definition same_double (a b : float) : Prop := a = b \/ (a =? b) = true.

(** [x] and [y] lie outside the special regions of a two-argument
    function whose near-one and near-equal bands have width [p] *)
Definition generic_region (p x y : float) : bool :=
  negb (Ffunctions.is_zero x Ffunctions.eps)
  && negb (Ffunctions.is_zero y Ffunctions.eps)
  && negb (Ffunctions.is_equal x 1.0 p)
  && negb (Ffunctions.is_equal y 1.0 p)
  && negb (Ffunctions.is_equal x y p).

(** the three possible outcomes of comparing two doubles that are not NaN *)
Variant ltb_order (x y : float) : Prop :=
| order_lt : (x <? y) = true -> (y <? x) = false -> ltb_order x y
| order_eq : x = y -> (x <? x) = false -> ltb_order x y
| order_gt : (y <? x) = true -> (x <? y) = false -> ltb_order x y.

(** The counterparts of [nonneg], [lambda_2] and [is_zero] on the
    specification of binary64 ([spec_float]), where the primitive
    operations are defined by their rounding. *)

Definition SFnonneg (X : spec_float) : Prop :=
  match X with
  | S754_zero false | S754_infinity false | S754_finite false _ _ => True
  | _ => False
  end.

Definition SFlambda_2 (U V : spec_float) : spec_float :=
  let one := Prim2SF 1 in
  let s := SF64sub (SF64sub one U) V in
  SF64sub (SF64mul s s) (SF64mul (SF64mul (Prim2SF 4) U) V).

Definition SFis_zero (A P : spec_float) : bool := SFltb (SFabs A) P.

(** case analysis on the comparisons of exponents and mantissas *)
Ltac sf_cmp :=
  repeat match goal with
  | |- context [(?a ?= ?b)%Z] => destruct (Z.compare_spec a b)
  | H : context [(?a ?= ?b)%Z] |- _ => destruct (Z.compare_spec a b)
  | |- context [Pos.compare_cont Eq ?a ?b] =>
      change (Pos.compare_cont Eq a b) with (Pos.compare a b);
      destruct (Pos.compare_spec a b)
  | H : context [Pos.compare_cont Eq ?a ?b] |- _ =>
      change (Pos.compare_cont Eq a b) with (Pos.compare a b) in H;
      destruct (Pos.compare_spec a b)
  end.

(** rewrite every comparison whose outcome is a hypothesis *)
Ltac rewrite_ltb :=
  repeat match goal with
  | H : (?a <? ?b) = _ |- context [?a <? ?b] => rewrite H; cbv iota beta
  end.

(** derive every comparison that follows by transitivity from two
    comparisons at hand, until two of them contradict each other *)
Ltac ltb_saturate trans :=
  repeat match goal with
  | H1 : (?a <? ?b) = true, H2 : (?b <? ?c) = true |- _ =>
      lazymatch goal with
      | _ : (a <? c) = true |- _ => fail
      | _ => assert ((a <? c) = true) by (apply (trans a b c); assumption)
      end
  end;
  congruence.

(** evaluate a call whose argument sits on the pole of the logarithm *)
Ltac eval_at_pole :=
  cbv -[log dilog]; rewrite log_zero; cbv -[log dilog].

(** * Facts on binary64 arithmetic

    The primitive operations are specified by [FloatAxioms] as the
    correctly rounded operations of [SpecFloat]; the lemmas below are
    derived from that specification. *)

Module Binary64.

Lemma Prim2SF_0 : Prim2SF 0 = S754_zero false.
Proof. reflexivity. Qed.

Lemma Prim2SF_2 : Prim2SF 2 = S754_finite false 4503599627370496 (-51).
Proof. reflexivity. Qed.

Lemma Prim2SF_neg_zero : Prim2SF neg_zero = S754_zero true.
Proof. reflexivity. Qed.

(** ** NaN is absorbing *)

Lemma nan_sub_l y : nan - y = nan.
Proof. apply Prim2SF_inj. rewrite sub_spec. reflexivity. Qed.

Lemma nan_add_l y : nan + y = nan.
Proof. apply Prim2SF_inj. rewrite add_spec. reflexivity. Qed.

Lemma nan_mul_l y : nan * y = nan.
Proof. apply Prim2SF_inj. rewrite mul_spec. reflexivity. Qed.

Lemma nan_div_l y : nan / y = nan.
Proof. apply Prim2SF_inj. rewrite div_spec. reflexivity. Qed.

Lemma nan_div_r x : x / nan = nan.
Proof.
  apply Prim2SF_inj. rewrite div_spec. simpl.
  destruct (Prim2SF x); reflexivity.
Qed.

Lemma nan_mul_r x : x * nan = nan.
Proof.
  apply Prim2SF_inj. rewrite mul_spec. simpl.
  destruct (Prim2SF x); reflexivity.
Qed.

Lemma is_nan_spec x : PrimFloat.is_nan x = false <-> Prim2SF x <> S754_nan.
Proof.
  unfold PrimFloat.is_nan. rewrite eqb_spec.
  destruct (Prim2SF x) as [s|s| |s m e]; unfold SFeqb; simpl.
  - split; [discriminate|reflexivity].
  - destruct s; (split; [discriminate|reflexivity]).
  - split; [discriminate|congruence].
  - rewrite Z.compare_refl, Pos.compare_cont_refl.
    destruct s; (split; [discriminate|reflexivity]).
Qed.

Lemma eqb_zero_not_nan r : (r =? 0) = true -> PrimFloat.is_nan r = false.
Proof.
  unfold PrimFloat.is_nan. rewrite !eqb_spec, Prim2SF_0.
  destruct (Prim2SF r) as [s|s| |s m e]; try reflexivity; try discriminate;
    destruct s; discriminate.
Qed.

(** ** Comparisons *)

Lemma leb_0_not_ltb_0 x : (0 <=? x) = true -> (x <? 0) = false.
Proof.
  rewrite leb_spec, ltb_spec, Prim2SF_0.
  now destruct (Prim2SF x) as [[]|[]| |[] m e].
Qed.

Lemma positive_finite x :
  (0 <? x) = true -> (x <? infinity) = true ->
  exists m e, Prim2SF x = S754_finite false m e.
Proof.
  rewrite !ltb_spec, Prim2SF_0.
  change (Prim2SF infinity) with (S754_infinity false).
  destruct (Prim2SF x) as [s|s| |s m e]; try discriminate.
  - destruct s; discriminate.
  - destruct s; [discriminate|eauto].
Qed.

Lemma nonneg_spec x : nonneg x = true -> SFnonneg (Prim2SF x).
Proof.
  unfold nonneg. rewrite classify_spec.
  unfold SF64classify, SFclassify.
  destruct (Prim2SF x) as [[]|[]| |[] m e]; cbn [SFnonneg];
    try discriminate; try (intros; exact I).
  destruct (Z.eqb _ _); discriminate.
Qed.

Lemma SFltb_asym X Y :
  SFnonneg X -> SFnonneg Y -> SFltb X Y = true -> SFltb Y X = false.
Proof.
  destruct X as [[]|[]| |[] mx ex], Y as [[]|[]| |[] my ey];
    simpl; try tauto; try discriminate; try reflexivity.
  unfold SFltb; simpl; intros _ _.
  sf_cmp; try discriminate; try reflexivity; try lia.
Qed.

Lemma SFltb_total X Y :
  SFnonneg X -> SFnonneg Y -> SFltb X Y = false -> SFltb Y X = false -> X = Y.
Proof.
  destruct X as [[]|[]| |[] mx ex], Y as [[]|[]| |[] my ey];
    simpl; try tauto; try discriminate; try reflexivity.
  unfold SFltb; simpl; intros _ _.
  sf_cmp; try discriminate; try lia; intros; subst; reflexivity.
Qed.

Lemma SFltb_trans X Y Z :
  SFnonneg X -> SFnonneg Y -> SFnonneg Z ->
  SFltb X Y = true -> SFltb Y Z = true -> SFltb X Z = true.
Proof.
  destruct X as [[]|[]| |[] mx ex], Y as [[]|[]| |[] my ey],
           Z as [[]|[]| |[] mz ez];
    simpl; try tauto; try discriminate; try reflexivity.
  unfold SFltb; simpl; intros _ _ _.
  sf_cmp; try discriminate; try reflexivity; try lia.
Qed.

Lemma ltb_asym x y :
  nonneg x = true -> nonneg y = true -> (x <? y) = true -> (y <? x) = false.
Proof.
  intros Hx%nonneg_spec Hy%nonneg_spec. rewrite !ltb_spec.
  now apply SFltb_asym.
Qed.

Lemma ltb_total x y :
  nonneg x = true -> nonneg y = true ->
  (x <? y) = false -> (y <? x) = false -> x = y.
Proof.
  intros Hx%nonneg_spec Hy%nonneg_spec. rewrite !ltb_spec. intros H1 H2.
  apply Prim2SF_inj. now apply SFltb_total.
Qed.

Lemma ltb_trans x y z :
  nonneg x = true -> nonneg y = true -> nonneg z = true ->
  (x <? y) = true -> (y <? z) = true -> (x <? z) = true.
Proof.
  intros Hx%nonneg_spec Hy%nonneg_spec Hz%nonneg_spec. rewrite !ltb_spec.
  now apply SFltb_trans.
Qed.

Lemma ltb_irrefl x : nonneg x = true -> (x <? x) = false.
Proof.
  intros H. destruct (x <? x) eqn:E; [|reflexivity].
  now rewrite (ltb_asym x x H H E) in E.
Qed.

Lemma ltb_cases x y : nonneg x = true -> nonneg y = true -> ltb_order x y.
Proof.
  intros Hx Hy.
  destruct (x <? y) eqn:Hxy.
  - apply order_lt; auto using ltb_asym.
  - destruct (y <? x) eqn:Hyx.
    + apply order_gt; auto.
    + apply order_eq; auto using ltb_total, ltb_irrefl.
Qed.

(** ** Zeros and positive numbers *)

(** a double [x >= 0] is -0, +0 or positive *)
Lemma leb_0_cases x :
  (0 <=? x) = true ->
  x = neg_zero \/ x = 0 \/ ((0 <? x) = true /\ nonneg x = true).
Proof.
  intros H. rewrite leb_spec, Prim2SF_0 in H.
  unfold nonneg. rewrite ltb_spec, classify_spec, Prim2SF_0.
  unfold SF64classify, SFclassify.
  destruct (Prim2SF x) as [[]|[]| |[] m e] eqn:E; try discriminate.
  - left. apply Prim2SF_inj. now rewrite E.
  - right; left. apply Prim2SF_inj. now rewrite E.
  - right; right. now split.
  - right; right. split; [reflexivity|]. now destruct (Z.eqb _ _).
Qed.

Lemma positive_ltb p :
  (0 <? p) = true ->
  (p <? 0) = false /\ (neg_zero <? p) = true /\ (p <? neg_zero) = false.
Proof.
  rewrite !ltb_spec, Prim2SF_0, Prim2SF_neg_zero.
  now destruct (Prim2SF p) as [[]|[]| |[] m e].
Qed.

Lemma zero_div_positive p :
  (0 <? p) = true -> 0 / p = 0 /\ neg_zero / p = neg_zero.
Proof.
  intros H. rewrite ltb_spec, Prim2SF_0 in H.
  split; apply Prim2SF_inj; rewrite div_spec;
    rewrite ?Prim2SF_0, ?Prim2SF_neg_zero;
    now destruct (Prim2SF p) as [[]|[]| |[] m e].
Qed.

Lemma zero_ltb :
  (0 <? 0) = false /\ (0 <? neg_zero) = false
  /\ (neg_zero <? 0) = false /\ (neg_zero <? neg_zero) = false.
Proof. repeat split. Qed.

Lemma zero_div_zero :
  0 / 0 = nan /\ 0 / neg_zero = nan /\ neg_zero / 0 = nan
  /\ neg_zero / neg_zero = nan.
Proof. repeat split. Qed.

(** ** Rounding never invents a NaN *)

Lemma shr_1_nonneg mrs : (0 <= shr_m mrs)%Z -> (0 <= shr_m (shr_1 mrs))%Z.
Proof.
  destruct mrs as [m r s]. simpl.
  destruct m as [|[p|p|]|[p|p|]]; simpl; lia.
Qed.

Lemma iter_pos_shr_1_nonneg n : forall mrs,
  (0 <= shr_m mrs)%Z -> (0 <= shr_m (iter_pos shr_1 n mrs))%Z.
Proof.
  induction n as [n IH|n IH|]; intros mrs H; simpl.
  - apply IH, IH, shr_1_nonneg, H.
  - apply IH, IH, H.
  - apply shr_1_nonneg, H.
Qed.

Lemma shr_fexp_nonneg m e l :
  (0 <= m)%Z -> (0 <= shr_m (fst (shr_fexp prec emax m e l)))%Z.
Proof.
  intros H. unfold shr_fexp, shr.
  assert (H0 : (0 <= shr_m (shr_record_of_loc m l))%Z)
    by (destruct l as [|[]]; exact H).
  destruct (fexp prec emax (Zdigits2 m + e) - e)%Z; simpl; auto.
  apply iter_pos_shr_1_nonneg, H0.
Qed.

Lemma round_nearest_even_nonneg m l :
  (0 <= m)%Z -> (0 <= round_nearest_even m l)%Z.
Proof.
  intros H. destruct l as [|[]]; simpl; try lia.
  destruct (Z.even m); lia.
Qed.

Lemma binary_round_aux_not_nan s m e l :
  (0 <= m)%Z -> binary_round_aux prec emax s m e l <> S754_nan.
Proof.
  intros H. unfold binary_round_aux.
  pose proof (shr_fexp_nonneg m e l H) as H1.
  destruct (shr_fexp prec emax m e l) as [mrs' e']. simpl in H1.
  pose proof (shr_fexp_nonneg _ e' loc_Exact
                (round_nearest_even_nonneg _ (loc_of_shr_record mrs') H1)) as H2.
  destruct (shr_fexp prec emax _ e' loc_Exact) as [mrs'' e'']. simpl in H2.
  destruct (shr_m mrs''); try lia; try discriminate.
  destruct (e'' <=? emax - prec)%Z; discriminate.
Qed.

Lemma SF64mul_finite_not_nan X s m e :
  X <> S754_nan -> SF64mul X (S754_finite s m e) <> S754_nan.
Proof.
  intros HX. destruct X as [sx|sx| |sx mx ex]; simpl; try discriminate.
  - contradiction.
  - apply binary_round_aux_not_nan. lia.
Qed.

Lemma SF64div_finite_not_nan X s m e :
  X <> S754_nan -> SF64div X (S754_finite s m e) <> S754_nan.
Proof.
  intros HX. destruct X as [sx|sx| |sx mx ex]; simpl; try discriminate.
  - contradiction.
  - unfold SF64div, SFdiv.
    destruct (SFdiv_core_binary prec emax (Z.pos mx) ex (Z.pos m) e)
      as [[q e'] l] eqn:E.
    apply binary_round_aux_not_nan.
    unfold SFdiv_core_binary in E.
    set (m' := match (ex - e - _)%Z with
               | Z0 => _ | Zpos _ => _ | Zneg _ => _ end) in E.
    assert (Hm' : (0 <= m')%Z).
    { unfold m'. destruct (ex - e - _)%Z; try lia.
      apply Z.shiftl_nonneg. lia. }
    pose proof (Z.div_pos m' (Z.pos m) Hm' ltac:(lia)) as Hq.
    unfold Z.div in Hq. destruct (Z.div_eucl m' (Z.pos m)) as [q' r'].
    simpl in Hq. inversion E; subst. exact Hq.
Qed.

(** ** A finite number divided by itself is one *)

Lemma SFdiv_core_self m e :
  SFdiv_core_binary prec emax (Zpos m) e (Zpos m) e
  = (9007199254740992%Z, (-53)%Z, loc_Exact).
Proof.
  unfold SFdiv_core_binary.
  replace (Zdigits2 (Z.pos m) + e - (Zdigits2 (Z.pos m) + e))%Z
    with 0%Z by lia.
  replace (e - e)%Z with 0%Z by lia.
  change (Z.min (fexp prec emax 0) 0) with (-53)%Z.
  change (0 - -53)%Z with 53%Z. cbv iota.
  assert (E : Z.div_eucl (Z.shiftl (Z.pos m) 53) (Z.pos m)
              = (9007199254740992%Z, 0%Z)).
  { rewrite Z.shiftl_mul_pow2 by lia.
    change (2 ^ 53)%Z with 9007199254740992%Z.
    generalize (Z.div_mul 9007199254740992 (Z.pos m) ltac:(lia)).
    generalize (Z.mod_mul 9007199254740992 (Z.pos m) ltac:(lia)).
    unfold Z.div, Z.modulo. rewrite (Z.mul_comm _ (Z.pos m)).
    destruct (Z.div_eucl _ _) as [q r]. simpl. now intros -> ->. }
  rewrite E. unfold new_location, new_location_even, new_location_odd.
  destruct (Z.even (Z.pos m)); reflexivity.
Qed.

Lemma SF64div_self s m e :
  SF64div (S754_finite s m e) (S754_finite s m e) = Prim2SF 1.
Proof.
  unfold SF64div, SFdiv. rewrite SFdiv_core_self.
  destruct s; reflexivity.
Qed.

Lemma div_self x :
  (exists s m e, Prim2SF x = S754_finite s m e) -> x / x = 1.
Proof.
  intros (s & m & e & H). apply Prim2SF_inj.
  rewrite div_spec, H. apply SF64div_self.
Qed.

(** ** Subtraction and division under exchange of the operands *)

Lemma SFopp_involutive X : SFopp (SFopp X) = X.
Proof. destruct X as [s|s| |s m e]; simpl; now rewrite ?negb_involutive. Qed.

Lemma SFabs_opp X : SFabs (SFopp X) = SFabs X.
Proof. now destruct X. Qed.

Lemma binary_round_aux_opp s m e l :
  binary_round_aux prec emax (negb s) m e l
  = SFopp (binary_round_aux prec emax s m e l).
Proof.
  unfold binary_round_aux.
  destruct (shr_fexp prec emax m e l) as [mrs' e'].
  destruct (shr_fexp prec emax _ e' loc_Exact) as [mrs'' e''].
  destruct (shr_m mrs''); try reflexivity.
  destruct (e'' <=? emax - prec)%Z; reflexivity.
Qed.

Lemma binary_round_opp s m e :
  binary_round prec emax (negb s) m e = SFopp (binary_round prec emax s m e).
Proof.
  unfold binary_round. destruct (shl_align _ _ _) as [mz ez].
  apply binary_round_aux_opp.
Qed.

Lemma binary_normalize_opp m e :
  binary_normalize prec emax (- m) e false
  = SFopp (binary_normalize prec emax m e false)
  \/ (binary_normalize prec emax m e false = S754_zero false
      /\ binary_normalize prec emax (- m) e false = S754_zero false).
Proof.
  destruct m as [|p|p]; simpl.
  - right. split; reflexivity.
  - left. apply (binary_round_opp false).
  - left. change true with (negb false).
    now rewrite binary_round_opp, SFopp_involutive.
Qed.

(** the two differences of any two doubles are opposite, or both +0 *)
Lemma SF64sub_swap X Y :
  SF64sub Y X = SFopp (SF64sub X Y)
  \/ (SF64sub X Y = S754_zero false /\ SF64sub Y X = S754_zero false).
Proof.
  destruct X as [sx|sx| |sx mx ex], Y as [sy|sy| |sy my ey];
    try (left; reflexivity);
    try (destruct sx, sy; simpl; auto; fail).
  unfold SF64sub, SFsub. rewrite (Z.min_comm ey ex).
  set (a := cond_Zopp sx _). set (b := cond_Zopp sy _).
  replace (b - a)%Z with (- (a - b))%Z by lia.
  apply binary_normalize_opp.
Qed.

Lemma digits2_pos_size m : digits2_pos m = Pos.size m.
Proof. induction m; simpl; congruence. Qed.

Lemma digits2_pos_bounds m :
  (2 ^ (Z.pos (digits2_pos m) - 1) <= Z.pos m < 2 ^ Z.pos (digits2_pos m))%Z.
Proof.
  rewrite digits2_pos_size.
  pose proof (Pos.size_gt m) as Hgt. pose proof (Pos.size_le m) as Hle.
  apply Pos2Z.pos_lt_pos in Hgt. apply Pos2Z.pos_le_pos in Hle.
  rewrite Pos2Z.inj_pow in Hgt, Hle.
  replace (Z.pos (Pos.size m)) with (Z.succ (Z.pos (Pos.size m) - 1))
    in Hle at 1 by lia.
  rewrite Z.pow_succ_r in Hle by lia. lia.
Qed.

(** what [Prim2SF_valid] says of a finite double: the exponent is at
    least [emin], the mantissa has at most [prec] digits, and exactly
    [prec] above [emin] (a normal number) *)
Lemma valid_finite s m e :
  valid_binary (S754_finite s m e) = true ->
  (emin <= e)%Z /\ (Z.pos (digits2_pos m) <= prec)%Z
  /\ ((emin < e)%Z -> Z.pos (digits2_pos m) = prec).
Proof.
  unfold valid_binary, bounded, canonical_mantissa, fexp, SpecFloat.emin,
    prec, emax.
  intros [H _]%andb_prop. apply Z.eqb_eq in H. lia.
Qed.

Lemma shl_align_le mx ex ez :
  (ez <= ex)%Z ->
  Z.pos (fst (shl_align mx ex ez)) = (Z.pos mx * 2 ^ (ex - ez))%Z.
Proof.
  intros H. unfold shl_align.
  destruct (ez - ex)%Z as [|d|d] eqn:E; try lia; simpl fst.
  - replace (ex - ez)%Z with 0%Z by lia. lia.
  - fold (shift_pos d mx). rewrite shift_pos_correct.
    replace (ex - ez)%Z with (Z.pos d) by lia.
    rewrite Z.pow_pos_fold. lia.
Qed.

(** for doubles [0 <= y < x] the two differences are exact opposites:
    the difference of two distinct doubles is never rounded to zero *)
Lemma SF64sub_swap_lt X Y :
  valid_binary X = true -> valid_binary Y = true ->
  SFleb (S754_zero false) X = true -> SFleb (S754_zero false) Y = true ->
  SFltb Y X = true ->
  SF64sub Y X = SFopp (SF64sub X Y).
Proof.
  intros VX VY PX PY HL.
  destruct X as [sx|sx| |sx mx ex], Y as [sy|sy| |sy my ey];
    try discriminate; try reflexivity;
    try (destruct sx, sy; (discriminate || reflexivity)).
  destruct sx; [discriminate|]. destruct sy; [discriminate|].
  clear PX PY.
  destruct (valid_finite _ _ _ VX) as (Hex & Hdx & Hnx).
  destruct (valid_finite _ _ _ VY) as (Hey & Hdy & Hny).
  pose proof (digits2_pos_bounds mx) as Bx.
  pose proof (digits2_pos_bounds my) as By.
  unfold SF64sub, SFsub. rewrite (Z.min_comm ey ex).
  set (ez := Z.min ex ey).
  unfold cond_Zopp.
  rewrite !shl_align_le by (unfold ez; lia).
  set (a := (Z.pos mx * _)%Z). set (b := (Z.pos my * _)%Z).
  assert (Hab : (0 < a - b)%Z).
  { unfold SFltb, SFcompare in HL.
    destruct (Z.compare_spec ey ex) as [E|E|E]; try discriminate.
    - subst ey. unfold a, b, ez. rewrite Z.min_id, Z.sub_diag, !Z.mul_1_r.
      change (Pos.compare_cont Eq my mx) with (Pos.compare my mx) in HL.
      destruct (Pos.compare_spec my mx); try discriminate. lia.
    - unfold a, b, ez. rewrite Z.min_r by lia.
      rewrite Z.sub_diag, Z.mul_1_r.
      specialize (Hnx ltac:(lia)). rewrite Hnx in Bx.
      assert (2 ^ prec <= Z.pos mx * 2 ^ (ex - ey))%Z.
      { replace prec with (Z.succ (prec - 1)) at 1 by lia.
        rewrite Z.pow_succ_r by (unfold prec; lia).
        assert (2 ^ 1 <= 2 ^ (ex - ey))%Z by (apply Z.pow_le_mono_r; lia).
        change (2 ^ 1)%Z with 2%Z in *. nia. }
      assert (2 ^ Z.pos (digits2_pos my) <= 2 ^ prec)%Z
        by (apply Z.pow_le_mono_r; lia).
      lia. }
  replace (b - a)%Z with (- (a - b))%Z by lia.
  destruct (a - b)%Z as [|p|p]; try lia.
  simpl. apply (binary_round_opp false).
Qed.

Lemma SF64div_opp_opp A B : SF64div (SFopp A) (SFopp B) = SF64div A B.
Proof.
  destruct A as [sa|sa| |sa ma ea], B as [sb|sb| |sb mb eb];
    simpl; try reflexivity; now destruct sa, sb.
Qed.

(** the finite-difference quotient does not depend on the order of the
    two points, up to the sign of a zero *)
Lemma quotient_swap (a b x y : float) :
  (0 <=? x) = true -> (0 <=? y) = true -> (y <? x) = true ->
  same_double (- (b - a) / (y - x)) (- (a - b) / (x - y)).
Proof.
  intros Hx Hy Hyx.
  rewrite leb_spec in Hx, Hy. rewrite ltb_spec in Hyx.
  rewrite Prim2SF_0 in Hx, Hy.
  pose proof (SF64sub_swap_lt _ _ (Prim2SF_valid x) (Prim2SF_valid y)
                Hx Hy Hyx) as HD.
  destruct (SF64sub_swap (Prim2SF a) (Prim2SF b)) as [HN|[HN HN']].
  - left. apply Prim2SF_inj.
    rewrite !div_spec, !opp_spec, !sub_spec, HD, HN.
    apply SF64div_opp_opp.
  - unfold same_double. rewrite eqb_spec.
    assert (E : Prim2SF (- (b - a) / (y - x))
                = SF64div (S754_zero true)
                    (SFopp (SF64sub (Prim2SF x) (Prim2SF y))))
      by now rewrite !div_spec, !opp_spec, !sub_spec, HD, HN'.
    assert (E' : Prim2SF (- (a - b) / (x - y))
                 = SF64div (S754_zero true) (SF64sub (Prim2SF x) (Prim2SF y)))
      by now rewrite !div_spec, !opp_spec, !sub_spec, HN.
    destruct (SF64sub (Prim2SF x) (Prim2SF y)) as [s|s| |s m e].
    + left. apply Prim2SF_inj. now rewrite E, E'.
    + right. rewrite E, E'. now destruct s.
    + left. apply Prim2SF_inj. now rewrite E, E'.
    + right. rewrite E, E'. now destruct s.
Qed.

(** ** The order on all doubles *)









Lemma ltb_irrefl_any x : (x <? x) = false.
Proof.
  rewrite ltb_spec. unfold SFltb.
  destruct (Prim2SF x) as [[]|[]| |[] m e]; simpl; try reflexivity;
    rewrite Z.compare_refl, Pos.compare_cont_refl; reflexivity.
Qed.

(** a double that compares equal to 0 is +0 or -0 *)
Lemma eqb_0_cases w : (w =? 0) = true -> w = 0 \/ w = neg_zero.
Proof.
  rewrite eqb_spec, Prim2SF_0. intros H.
  destruct (Prim2SF w) as [[]|[]| |[] m e] eqn:E; try discriminate.
  - right. apply Prim2SF_inj. now rewrite E.
  - left. apply Prim2SF_inj. now rewrite E.
Qed.

(** ** NaN as an operand *)

(** there is one NaN *)
Lemma is_nan_true x : PrimFloat.is_nan x = true -> x = nan.
Proof.
  intros H. apply Prim2SF_inj. change (Prim2SF nan) with S754_nan.
  destruct (Prim2SF x) eqn:E; try reflexivity;
    assert (N : PrimFloat.is_nan x = false)
      by (apply is_nan_spec; rewrite E; discriminate);
    congruence.
Qed.

Lemma nan_sub_r x : x - nan = nan.
Proof.
  apply Prim2SF_inj. rewrite sub_spec.
  now destruct (Prim2SF x) as [[]|[]| |[] m e].
Qed.

Lemma nan_add_r x : x + nan = nan.
Proof.
  apply Prim2SF_inj. rewrite add_spec.
  now destruct (Prim2SF x) as [[]|[]| |[] m e].
Qed.

Lemma nan_abs_ltb p : (abs nan <? p) = false.
Proof. rewrite ltb_spec, abs_spec. reflexivity. Qed.

(** ** Magnitudes *)


Lemma nonneg_of_spec x : SFnonneg (Prim2SF x) -> nonneg x = true.
Proof.
  unfold nonneg. rewrite classify_spec.
  unfold SF64classify, SFclassify.
  destruct (Prim2SF x) as [[]|[]| |[] m e]; cbn [SFnonneg];
    try contradiction; try reflexivity.
  intros _. destruct (Z.eqb _ _); reflexivity.
Qed.



(** ** Products *)

Lemma binary_round_aux_nonneg m e l :
  (0 <= m)%Z -> SFnonneg (binary_round_aux prec emax false m e l).
Proof.
  intros H. unfold binary_round_aux.
  pose proof (shr_fexp_nonneg m e l H) as H1.
  destruct (shr_fexp prec emax m e l) as [mrs' e']. simpl in H1.
  pose proof (shr_fexp_nonneg _ e' loc_Exact
                (round_nearest_even_nonneg _ (loc_of_shr_record mrs') H1)) as H2.
  destruct (shr_fexp prec emax _ e' loc_Exact) as [mrs'' e'']. simpl in H2.
  destruct (shr_m mrs''); try lia; simpl; auto.
  destruct (_ <=? _)%Z; exact I.
Qed.

(** a square is never negative, and never -0 *)
Lemma SF64mul_self_nonneg X : X <> S754_nan -> SFnonneg (SF64mul X X).
Proof.
  destruct X as [s|s| |s m e]; simpl; try (destruct s; simpl; auto; fail).
  - congruence.
  - intros _. replace (xorb s s) with false by now destruct s.
    apply binary_round_aux_nonneg. lia.
Qed.



(** ** Zero divided by zero *)

(** [b * (0 * z * 0 / 2) / d] with [d == 0] *)
Lemma SFthreshold_quotient B Z D :
  SFeqb D (S754_zero false) = true ->
  SF64div
    (SF64mul B
       (SF64div (SF64mul (SF64mul (S754_zero false) Z) (S754_zero false))
          (Prim2SF 2)))
    D = S754_nan.
Proof.
  destruct D as [[]|[]| |[] md ed]; try discriminate; intros _;
    destruct B as [[]|[]| |[] mb eb], Z as [[]|[]| |[] mz ez];
    vm_compute; reflexivity.
Qed.

(** [z * z * lambda_2 (x / z) (y / z)] with [z] a zero *)
Lemma SFlambda_2_zero_divisor X Y s :
  SF64mul (SF64mul (S754_zero s) (S754_zero s))
    (SFlambda_2 (SF64div X (S754_zero s)) (SF64div Y (S754_zero s)))
  = S754_nan.
Proof.
  destruct s, X as [[]|[]| |[] mx ex], Y as [[]|[]| |[] my ey];
    vm_compute; reflexivity.
Qed.

End Binary64.

(** * The comparison and sorting helpers *)

Section Helpers.
Import Ffunctions Binary64.

Lemma is_zero_spec a p : is_zero a p = SFis_zero (Prim2SF a) (Prim2SF p).
Proof. unfold is_zero, SFis_zero. now rewrite ltb_spec, abs_spec. Qed.

Lemma lambda_2_spec u v :
  Prim2SF (lambda_2 u v) = SFlambda_2 (Prim2SF u) (Prim2SF v).
Proof.
  unfold lambda_2, sqr, SFlambda_2.
  now rewrite !sub_spec, !mul_spec, !sub_spec.
Qed.

(** [is_zero] accepts zeros and finite numbers only *)
Lemma SFis_zero_small A P :
  SFis_zero A P = true ->
  (exists s, A = S754_zero s) \/ (exists s m e, A = S754_finite s m e).
Proof.
  unfold SFis_zero, SFltb.
  destruct A as [s|s| |s m e]; simpl; intros H.
  - left; eauto.
  - destruct P as [| [] | |[] ? ?]; discriminate.
  - discriminate.
  - right; eauto.
Qed.

(** When the discriminant of the ratios [x/z] and [y/z] passes
    [is_zero] for a tolerance that rejects 1, the divisor [z] is a
    finite non-zero number: a zero, infinite or NaN divisor makes the
    discriminant 1, infinite or NaN. *)
Lemma SFlambda_2_small_divisor X Y Z P :
  SFis_zero (Prim2SF 1) P = false ->
  SFis_zero (SFlambda_2 (SF64div X Z) (SF64div Y Z)) P = true ->
  exists s m e, Z = S754_finite s m e.
Proof.
  intros HP H.
  destruct Z as [sz|sz| |sz mz ez]; [exfalso..|eauto].
  - destruct sz, X as [[]|[]| |[] ? ?], Y as [[]|[]| |[] ? ?];
      vm_compute in H; try discriminate;
      destruct P as [[]|[]| |[] ? ?]; discriminate.
  - destruct sz, X as [[]|[]| |[] ? ?], Y as [[]|[]| |[] ? ?];
      vm_compute in H; try discriminate;
      try (vm_compute in HP; congruence).
  - destruct X, Y; vm_compute in H; discriminate.
Qed.

(** the value [Phi] returns once [phi_uv] has returned 0.0 *)
Lemma Phi_tail_zero (z lam p : float) :
  (exists s m e, Prim2SF z = S754_finite s m e) ->
  is_zero lam p = true ->
  (0.0 * z * lam / 2 =? 0) = true.
Proof.
  intros (s & m & e & Hz) Hl.
  rewrite is_zero_spec in Hl.
  rewrite eqb_spec, div_spec, !mul_spec, Hz, Prim2SF_2, Prim2SF_0.
  destruct (SFis_zero_small _ _ Hl) as [[sl ->]|(sl & ml & el & ->)];
    destruct s, sl; reflexivity.
Qed.

Lemma Phi_tail_zero_ratio (x y z p : float) :
  is_zero 1 p = false ->
  is_zero (lambda_2 (x / z) (y / z)) p = true ->
  (0.0 * z * lambda_2 (x / z) (y / z) / 2 =? 0) = true.
Proof.
  intros Hp H. apply Phi_tail_zero with (p := p); [|exact H].
  rewrite is_zero_spec in Hp.
  rewrite is_zero_spec, lambda_2_spec, !div_spec in H.
  eapply SFlambda_2_small_divisor; eauto.
Qed.

Lemma is_equal_swap (x y p : float) :
  (0 <=? x) = true -> (0 <=? y) = true -> (y <? x) = true ->
  is_equal y x p = is_equal x y p.
Proof.
  intros Hx Hy Hyx. unfold is_equal, is_zero.
  rewrite leb_spec, Prim2SF_0 in Hx, Hy. rewrite ltb_spec in Hyx.
  assert (E1 : abs (y - x) = abs (x - y)).
  { apply Prim2SF_inj. rewrite !abs_spec, !sub_spec.
    rewrite SF64sub_swap_lt; auto using Prim2SF_valid, SFabs_opp. }
  assert (E2 : fmax (abs y) (abs x) = fmax (abs x) (abs y)).
  { unfold fmax. rewrite !ltb_spec, !abs_spec.
    destruct (Prim2SF x) as [[]|[]| |[] mx ex],
             (Prim2SF y) as [[]|[]| |[] my ey];
      try discriminate; try reflexivity.
    unfold SFltb in *. simpl in *.
    destruct (Z.compare_spec ey ex), (Z.compare_spec ex ey); try lia;
      try discriminate; try reflexivity.
    change (Pos.compare_cont Eq my mx) with (Pos.compare my mx) in *.
    change (Pos.compare_cont Eq mx my) with (Pos.compare mx my) in *.
    rewrite (Pos.compare_antisym my mx).
    destruct (Pos.compare my mx); try discriminate; reflexivity. }
  now rewrite E1, E2.
Qed.

Lemma sort3_diag x : sort3 x x x = (x, x, x).
Proof.
  unfold sort3, gtb.
  destruct (x <? x) eqn:E; cbv iota beta; rewrite E; cbv iota beta;
    rewrite E; reflexivity.
Qed.

End Helpers.

(** * [Phi]: the vanishing discriminant *)

Section PhiZeroDiscriminant.
Import Binary64.
Context {L : Libm}.

Lemma phi_uv_zero_branch u v :
  Ffunctions.is_zero (Ffunctions.lambda_2 u v) Ffunctions.eps = true ->
  Ffunctions.phi_uv u v = 0.0.
Proof. unfold Ffunctions.phi_uv. intros ->. reflexivity. Qed.

Lemma phi_uv_old_zero_branch u v :
  Ffunctions.is_zero (Ffunctions.lambda_2 u v) 1e-11 = true ->
  FfunctionsOld.phi_uv u v = 0.0.
Proof. unfold FfunctionsOld.phi_uv. intros ->. reflexivity. Qed.

(** C1 (amended).  Let [(x', y', z')] be the arguments after sorting and
    [u = x'/z'], [v = y'/z'].  Whenever the discriminant [lambda_2 u v]
    passes the zero test of [phi_uv], which in [src/gm2_ffunctions.cpp]
    is the absolute test [|lambda^2| < eps] with
    [eps = 10 * DBL_EPSILON], [Phi x y z] compares equal to 0 and is
    not a NaN. *)
Theorem Phi_zero_discriminant (x y z : float) :
  (let '(x', y', z') := Ffunctions.sort3 x y z in
   Ffunctions.is_zero (Ffunctions.lambda_2 (x' / z') (y' / z'))
     Ffunctions.eps) = true ->
  (Ffunctions.Phi x y z =? 0) = true
  /\ PrimFloat.is_nan (Ffunctions.Phi x y z) = false.
Proof.
  unfold Ffunctions.Phi.
  destruct (Ffunctions.sort3 x y z) as [[x' y'] z']. intros H.
  rewrite (phi_uv_zero_branch _ _ H).
  assert (E : (0.0 * z' * Ffunctions.lambda_2 (x' / z') (y' / z') / 2 =? 0)
              = true)
    by (apply Phi_tail_zero_ratio with (p := Ffunctions.eps);
        [reflexivity|exact H]).
  split; [exact E|]. now apply eqb_zero_not_nan.
Qed.

(** X1.  The older copy tests the discriminant against 1e-11, the
    tolerance the specification quotes: whenever [|lambda_2 u v| < 1e-11]
    for the sorted ratios, its [Phi] compares equal to 0 and is not a
    NaN. *)
Lemma Phi_old_zero_discriminant (x y z : float) :
  (let '(x', y', z') := Ffunctions.sort3 x y z in
   Ffunctions.is_zero (Ffunctions.lambda_2 (x' / z') (y' / z')) 1e-11)
  = true ->
  (FfunctionsOld.Phi x y z =? 0) = true
  /\ PrimFloat.is_nan (FfunctionsOld.Phi x y z) = false.
Proof.
  unfold FfunctionsOld.Phi.
  destruct (Ffunctions.sort3 x y z) as [[x' y'] z']. intros H.
  rewrite (phi_uv_old_zero_branch _ _ H).
  assert (E : (0.0 * z' * Ffunctions.lambda_2 (x' / z') (y' / z') / 2 =? 0)
              = true)
    by (apply Phi_tail_zero_ratio with (p := 1e-11);
        [reflexivity|exact H]).
  split; [exact E|]. now apply eqb_zero_not_nan.
Qed.

(** For a discriminant between the two tolerances the library source
    does not take the zero branch, whatever the external routines
    return: [Phi 1 1 3.99999999999] is computed by [phi_neg]. *)
Lemma Phi_skips_zero_branch :
  let u := 1 / 3.99999999999 in
  Ffunctions.is_zero (Ffunctions.lambda_2 u u) 1e-11 = true
  /\ Ffunctions.is_zero (Ffunctions.lambda_2 u u) Ffunctions.eps = false
  /\ Ffunctions.Phi 1 1 3.99999999999
     = Ffunctions.phi_neg u u * 3.99999999999 * Ffunctions.lambda_2 u u / 2.
Proof. repeat split. Qed.

End PhiZeroDiscriminant.

Lemma Phi_old_zero_discriminant_at_1_1_4 :
  (FfunctionsOld.Phi (L := coarse_libm) 1 1 4 =? 0) = true
  /\ PrimFloat.is_nan (FfunctionsOld.Phi (L := coarse_libm) 1 1 4) = false.
Proof.
  apply (Phi_old_zero_discriminant (L := coarse_libm) 1 1 4). reflexivity.
Defined.

Lemma Phi_zero_discriminant_at_1_1_4 :
  (Ffunctions.Phi (L := coarse_libm) 1 1 4 =? 0) = true
  /\ PrimFloat.is_nan (Ffunctions.Phi (L := coarse_libm) 1 1 4) = false.
Proof.
  apply (Phi_zero_discriminant (L := coarse_libm) 1 1 4). reflexivity.
Defined.

(** C1 as stated, with the tolerance 1e-11, fails on the library
    source: at [(1, 1, 3.99999999999)] the discriminant of the ratios is
    about -2.5e-12, inside the stated tolerance; [Phi] is the value of
    the [phi_neg] branch for every implementation of the external
    routines, and it is not 0 for the coarse one. *)
Lemma Phi_small_discriminant_nonzero :
  (let '(x', y', z') := Ffunctions.sort3 1 1 3.99999999999 in
   Ffunctions.is_zero (Ffunctions.lambda_2 (x' / z') (y' / z')) 1e-11)
  = true
  /\ (forall L : Libm,
        let u := 1 / 3.99999999999 in
        Ffunctions.Phi 1 1 3.99999999999
        = Ffunctions.phi_neg u u * 3.99999999999
          * Ffunctions.lambda_2 u u / 2)
  /\ (Ffunctions.Phi (L := coarse_libm) 1 1 3.99999999999 =? 0) = false.
Proof.
  split; [reflexivity|]. split; [|reflexivity].
  intros L. apply Phi_skips_zero_branch.
Qed.

(** * [Fa] and [Fb] at vanishing arguments *)

Section FaFbZero.
Import Ffunctions.
Context {L : Libm}.

(** C2 (amended).  In [src/gm2_ffunctions.cpp] the arguments are sorted
    and only the larger one is tested: for [x, y >= 0], [Fa x y] and
    [Fb x y] return 0, and report nothing, when both arguments are
    approximately zero. *)
Theorem Fa_Fb_both_zero (x y : float) (out : list string) :
  (x <? 0) = false -> (y <? 0) = false ->
  is_zero x eps = true -> is_zero y eps = true ->
  runState (Fa x y) out = (0, out) /\ runState (Fb x y) out = (0, out).
Proof.
  intros Hx Hy Zx Zy. unfold Fa, Fb, sort2. rewrite Hx, Hy.
  destruct (gtb x y); cbv iota beta; rewrite ?Zx, ?Zy; split; reflexivity.
Qed.

(** X2.  The older copy tests both arguments, before any sorting and
    without a sign check: either one approximately zero gives 0. *)
Lemma Fa_Fb_old_either_zero (x y : float) :
  is_zero x eps || is_zero y eps = true ->
  FfunctionsOld.Fa x y = 0 /\ FfunctionsOld.Fb x y = 0.
Proof.
  intros H. unfold FfunctionsOld.Fa, FfunctionsOld.Fb.
  change FfunctionsOld.eps with eps.
  destruct (is_zero x eps), (is_zero y eps); try discriminate;
    split; reflexivity.
Qed.

(** With one argument zero and the other not, the library source
    evaluates the generic or near-one formula on [log 0]. *)
Lemma Fa_Fb_one_zero (out : list string) :
  runState (Fa 0 1.01) out = (infinity, out)
  /\ runState (Fb 0 1.01) out = (nan, out).
Proof. split; eval_at_pole; reflexivity. Qed.

End FaFbZero.

Lemma Fa_Fb_old_either_zero_at_0_2 :
  FfunctionsOld.Fa (L := coarse_libm) 0 2 = 0
  /\ FfunctionsOld.Fb (L := coarse_libm) 0 2 = 0.
Proof.
  apply (Fa_Fb_old_either_zero (L := coarse_libm) 0 2). reflexivity.
Defined.

Lemma Fa_Fb_both_zero_at_0_1em16 :
  runState (Ffunctions.Fa (L := coarse_libm) 0 1e-16) [] = (0, [])
  /\ runState (Ffunctions.Fb (L := coarse_libm) 0 1e-16) [] = (0, []).
Proof.
  apply (Fa_Fb_both_zero (L := coarse_libm) 0 1e-16 []); reflexivity.
Defined.

(** C2 as stated fails on the library source: 0 and 1.01 are
    non-negative and 0 is approximately zero, yet [Fa 0 1.01] is +inf
    and [Fb 0 1.01] is NaN, for every implementation of the external
    routines. *)
Lemma Fa_one_zero_argument_not_zero :
  ((0 <=? 0) = true /\ (0 <=? 1.01) = true
   /\ Ffunctions.is_zero 0 Ffunctions.eps = true)
  /\ (forall (L : Libm) (out : list string),
        runState (Ffunctions.Fa 0 1.01) out = (infinity, out)
        /\ runState (Ffunctions.Fb 0 1.01) out = (nan, out))
  /\ (infinity =? 0) = false /\ (nan =? 0) = false.
Proof.
  split; [repeat split|]. split; [|split; reflexivity].
  intros L out. apply Fa_Fb_one_zero.
Qed.

(** * The one-argument form factors at zero *)

Section AtZero.
Import Ffunctions Binary64.
Context {L : Libm}.

(** the generic formulas of [F3C], [G3] and [G4] on [log 0 = -inf] *)
Lemma form_factors_at_zero_values :
  F3C 0 = nan /\ G3 0 = infinity /\ G4 0 = nan.
Proof.
  repeat split; eval_at_pole; try reflexivity.
  now rewrite nan_sub_l, nan_mul_r.
Qed.

(** C3 (amended).  [F1C], [F2C], [F4C], [F1N], [F2N], [F3N] and [F4N]
    return a fixed finite value for every approximately zero argument,
    through their explicit [is_zero] check.  [F3C], [G3] and [G4] have
    no such check: at 0 they evaluate the generic formula on [log 0]
    and return NaN, +inf and NaN. *)
Theorem form_factors_at_zero (x : float) :
  is_zero x eps = true ->
  (F1C x = 4.0 /\ F2C x = 0.0 /\ F4C x = 0.0 /\ F1N x = 2.0 /\ F2N x = 3.0
   /\ F3N x = 8.0 / 105.0 /\ F4N x = -3.0 / 4.0 * (-9.0 + 9.8696044010893586))
  /\ (F3C 0 = nan /\ G3 0 = infinity /\ G4 0 = nan).
Proof.
  intros H. split.
  - unfold F1C, F2C, F4C, F1N, F2N, F3N, F4N. rewrite H. repeat split.
  - exact form_factors_at_zero_values.
Qed.

End AtZero.

Lemma form_factors_at_zero_witness :
  (Ffunctions.F1C (L := coarse_libm) 0 = 4.0
   /\ Ffunctions.F2C (L := coarse_libm) 0 = 0.0
   /\ Ffunctions.F4C (L := coarse_libm) 0 = 0.0
   /\ Ffunctions.F1N (L := coarse_libm) 0 = 2.0
   /\ Ffunctions.F2N (L := coarse_libm) 0 = 3.0
   /\ Ffunctions.F3N (L := coarse_libm) 0 = 8.0 / 105.0
   /\ Ffunctions.F4N (L := coarse_libm) 0
      = -3.0 / 4.0 * (-9.0 + 9.8696044010893586))
  /\ (Ffunctions.F3C (L := coarse_libm) 0 = nan
      /\ Ffunctions.G3 (L := coarse_libm) 0 = infinity
      /\ Ffunctions.G4 (L := coarse_libm) 0 = nan).
Proof.
  apply (form_factors_at_zero (L := coarse_libm) 0). reflexivity.
Defined.

(** C3 as stated fails for [F3C], [G3] and [G4]: for every
    implementation of the external routines the value at 0 is not
    finite. *)
Lemma G3_at_zero_not_finite :
  Ffunctions.is_zero 0 Ffunctions.eps = true
  /\ (forall L : Libm,
        PrimFloat.is_finite (Ffunctions.F3C 0) = false
        /\ PrimFloat.is_finite (Ffunctions.G3 0) = false
        /\ PrimFloat.is_finite (Ffunctions.G4 0) = false).
Proof.
  split; [reflexivity|]. intros L.
  destruct (form_factors_at_zero_values (L := L)) as (-> & -> & ->).
  repeat split.
Qed.

(** * [Fa] and [Fb] off the special regions *)

Section FiniteDifference.
Import Ffunctions Binary64.
Context {L : Libm}.

Lemma generic_region_inv p x y :
  generic_region p x y = true ->
  is_zero x eps = false /\ is_zero y eps = false
  /\ is_equal x 1.0 p = false /\ is_equal y 1.0 p = false
  /\ is_equal x y p = false.
Proof.
  unfold generic_region. rewrite !andb_true_iff, !negb_true_iff. tauto.
Qed.

(** C4.  For [x, y >= 0] outside the special regions of [Fa] (band
    0.001), [Fa x y] reports nothing and equals, as a double, the
    quotient [-(G3 x - G3 y)/(x - y)]; likewise [Fb] (band 0.01) with
    [G4].  The code forms the quotient at the sorted pair; the two
    orders give the same double up to the sign of a zero. *)
Theorem Fa_Fb_finite_difference (x y : float) (out : list string) :
  (0 <=? x) = true -> (0 <=? y) = true ->
  (generic_region 0.001 x y = true ->
   exists r, runState (Fa x y) out = (r, out)
             /\ same_double r (- (G3 x - G3 y) / (x - y)))
  /\ (generic_region 0.01 x y = true ->
      exists r, runState (Fb x y) out = (r, out)
                /\ same_double r (- (G4 x - G4 y) / (x - y))).
Proof.
  intros Hx Hy.
  pose proof (leb_0_not_ltb_0 x Hx) as Nx.
  pose proof (leb_0_not_ltb_0 y Hy) as Ny.
  split; intros (Zx & Zy & X1 & Y1 & XY)%generic_region_inv.
  - unfold Fa, sort2. rewrite Nx, Ny. cbv iota beta. cbn [orb].
    destruct (gtb x y) eqn:G; cbv iota beta.
    + rewrite Zx, Y1, X1, (is_equal_swap x y _ Hx Hy G), XY. cbn [andb].
      eexists. split; [reflexivity|]. now apply quotient_swap.
    + rewrite Zy, X1, Y1, XY. cbn [andb].
      eexists. split; [reflexivity|]. now left.
  - unfold Fb, sort2. rewrite Nx, Ny. cbv iota beta. cbn [orb].
    destruct (gtb x y) eqn:G; cbv iota beta.
    + rewrite Zx, Y1, X1, (is_equal_swap x y _ Hx Hy G), XY. cbn [andb].
      eexists. split; [reflexivity|]. now apply quotient_swap.
    + rewrite Zy, X1, Y1, XY. cbn [andb].
      eexists. split; [reflexivity|]. now left.
Qed.

End FiniteDifference.

Lemma Fa_Fb_finite_difference_at_3_2 :
  generic_region 0.001 3 2 = true /\ generic_region 0.01 3 2 = true
  /\ (exists r, runState (Ffunctions.Fa (L := coarse_libm) 3 2) [] = (r, [])
       /\ same_double r
            (- (Ffunctions.G3 (L := coarse_libm) 3
                - Ffunctions.G3 (L := coarse_libm) 2) / (3 - 2)))
  /\ (exists r, runState (Ffunctions.Fb (L := coarse_libm) 3 2) [] = (r, [])
       /\ same_double r
            (- (Ffunctions.G4 (L := coarse_libm) 3
                - Ffunctions.G4 (L := coarse_libm) 2) / (3 - 2))).
Proof.
  destruct (Fa_Fb_finite_difference (L := coarse_libm) 3 2 [] eq_refl eq_refl)
    as [HA HB].
  repeat split; [exact (HA eq_refl)|exact (HB eq_refl)].
Defined.

(** * Symmetry *)

Section Symmetry.
Import Ffunctions Binary64.
Context {L : Libm}.

(** Two zeros of opposite sign are not exchanged by [sort]; the two
    orders reach [phi_pos], where [log] of either zero is -inf and the
    sum is NaN.  With three zeros both ratios are 0/0. *)
Lemma phi_uv_mixed_zeros :
  phi_uv 0 neg_zero = nan /\ phi_uv neg_zero 0 = nan.
Proof.
  split; cbv -[log dilog pow]; rewrite ?log_zero, ?log_neg_zero;
    destruct (_ <? _); rewrite ?log_zero, ?log_neg_zero;
    cbv -[log dilog pow]; now rewrite nan_sub_l, nan_add_l.
Qed.

Lemma phi_uv_nan : phi_uv nan nan = nan.
Proof. cbv -[clausen_2 acos]. apply nan_div_r. Qed.

(** split an argument [x >= 0] into -0, +0 and positive, and record how
    a positive one compares with, and divides, the zeros *)
Ltac split_arg H :=
  match type of H with
  | (0 <=? ?x) = true =>
      let P := fresh "P" in
      let N := fresh "N" in
      destruct (leb_0_cases x H) as [->|[->|[P N]]];
      [| |destruct (positive_ltb x P) as (? & ? & ?);
          destruct (zero_div_positive x P) as (? & ?)]
  end.

(** compare the positive arguments pairwise *)
Ltac order_positive :=
  repeat match goal with
  | Hx : nonneg ?x = true, Hy : nonneg ?y = true |- _ =>
      lazymatch goal with
      | _ : ltb_order x y |- _ => fail
      | _ : ltb_order y x |- _ => fail
      | _ => tryif constr_eq x y then fail
             else pose proof (ltb_cases x y Hx Hy)
      end
  end;
  repeat match goal with
  | H : ltb_order _ _ |- _ => destruct H
  end.

(** C5.  For non-negative arguments [Phi] takes the same value at
    every permutation of [(x, y, z)], and [Fa], [Fb] are symmetric,
    in value and in what they report: the arguments are sorted first.
    (The sorting network leaves two zeros of opposite sign in their
    input order; [Phi] is NaN at every such permutation.) *)
Theorem Phi_Fa_Fb_symmetric (x y z : float) :
  (0 <=? x) = true -> (0 <=? y) = true -> (0 <=? z) = true ->
  (Phi x z y = Phi x y z /\ Phi y x z = Phi x y z /\ Phi y z x = Phi x y z
   /\ Phi z x y = Phi x y z /\ Phi z y x = Phi x y z)
  /\ Fa y x = Fa x y /\ Fb y x = Fb x y.
Proof.
  intros Hx Hy Hz.
  destruct zero_ltb as (? & ? & ? & ?).
  destruct zero_div_zero as (D00 & D0n & Dn0 & Dnn).
  split_arg Hx; split_arg Hy; split_arg Hz.
  all: order_positive; subst.
  (* run the sorting networks; equal sorted arguments settle the case *)
  all: unfold Phi, Fa, Fb, sort2, sort3, gtb; rewrite_ltb.
  all: repeat split; try reflexivity.
  (* zeros of opposite sign: both sides are NaN *)
  all: repeat match goal with
       | H : _ / _ = _ |- _ => rewrite H
       end.
  all: rewrite ?D00, ?D0n, ?Dn0, ?Dnn.
  all: rewrite ?phi_uv_nan, ?(proj1 phi_uv_mixed_zeros),
         ?(proj2 phi_uv_mixed_zeros).
  all: rewrite ?nan_mul_l, ?nan_div_l; try reflexivity.
  (* what is left are cyclic orders of three positive arguments *)
  all: exfalso; ltb_saturate ltb_trans.
Qed.

End Symmetry.

Lemma Phi_Fa_Fb_symmetric_at_1_2_3 :
  let Phi := Ffunctions.Phi (L := coarse_libm) in
  (Phi 1 3 2 = Phi 1 2 3 /\ Phi 2 1 3 = Phi 1 2 3 /\ Phi 2 3 1 = Phi 1 2 3
   /\ Phi 3 1 2 = Phi 1 2 3 /\ Phi 3 2 1 = Phi 1 2 3)
  /\ Ffunctions.Fa (L := coarse_libm) 2 1 = Ffunctions.Fa (L := coarse_libm) 1 2
  /\ Ffunctions.Fb (L := coarse_libm) 2 1 = Ffunctions.Fb (L := coarse_libm) 1 2.
Proof.
  apply (Phi_Fa_Fb_symmetric (L := coarse_libm) 1 2 3); reflexivity.
Defined.

(** * Negative arguments *)

Section NegativeArguments.
Import Ffunctions.
Context {L : Libm}.

(** C6.  Called with a negative argument, each of [Fa], [Fb], [f_PS],
    [f_S], [f_sferm], [F1], [F1t], [F2] and [F3] appends one message to
    the diagnostic stream, that the argument must not be negative, and
    returns the quiet NaN.  ([F1t] has no check of its own: the message
    is the one of [f_PS], which it calls.)  The functions are total:
    nothing is thrown. *)
Theorem negative_argument_diagnostic (w x y : float) (out : list string) :
  (w <? 0) = true -> (x <? 0) || (y <? 0) = true ->
  runState (Fa x y) out
  = (quiet_NaN, out ++ ["Fa: x and y must not be negative!"%string])%list
  /\ runState (Fb x y) out
     = (quiet_NaN, out ++ ["Fb: x and y must not be negative!"%string])%list
  /\ runState (f_PS w) out
     = (quiet_NaN, out ++ ["f_PS: z must not be negative!"%string])%list
  /\ runState (f_S w) out
     = (quiet_NaN, out ++ ["f_S: z must not be negative!"%string])%list
  /\ runState (f_sferm w) out
     = (quiet_NaN, out ++ ["f_sferm: z must not be negative!"%string])%list
  /\ runState (F1 w) out
     = (quiet_NaN, out ++ ["F1: w must not be negative!"%string])%list
  /\ runState (F1t w) out
     = (quiet_NaN, out ++ ["f_PS: z must not be negative!"%string])%list
  /\ runState (F2 w) out
     = (quiet_NaN, out ++ ["F2: w must not be negative!"%string])%list
  /\ runState (F3 w) out
     = (quiet_NaN, out ++ ["F3: w must not be negative!"%string])%list.
Proof.
  intros Hw Hxy.
  unfold Fa, Fb, f_S, f_sferm, F1, F1t, F2, F3, f_PS.
  cbn [bind ret Monad_state runState].
  rewrite Hxy. change (w <? 0.0) with (w <? 0). rewrite Hw.
  repeat split.
Qed.

End NegativeArguments.

Lemma negative_argument_diagnostic_at_m1 :
  runState (Ffunctions.Fa (L := coarse_libm) (-1.0) 1.0) []
  = (quiet_NaN, ["Fa: x and y must not be negative!"%string])
  /\ runState (Ffunctions.f_PS (L := coarse_libm) (-1.0)) []
     = (quiet_NaN, ["f_PS: z must not be negative!"%string]).
Proof.
  pose proof (negative_argument_diagnostic (L := coarse_libm)
                (-1.0) (-1.0) 1.0 [] eq_refl eq_refl) as H.
  split; [exact (proj1 H)|exact (proj1 (proj2 (proj2 H)))].
Defined.

(** * Exact values *)

Section ExactValues.
Import Ffunctions.
Context {L : Libm}.

(** C7.  The special values are returned by explicit branches, so they
    hold for any implementation of the external routines; the functions
    of the [f_PS] family report nothing at these points. *)
Theorem exact_special_values (out : list string) :
  F1C 0 = 4.0 /\ F2C 0 = 0.0 /\ F1N 0 = 2.0 /\ F2N 0 = 3.0
  /\ F3N 0 = 8.0 / 105.0
  /\ runState (f_PS 0) out = (0.0, out)
  /\ runState (f_PS 0.25) out = (1.3862943611198906, out)
  /\ runState (F1 0.25) out = (-0.5, out)
  /\ runState (F2 0.25) out = (-0.38629436111989062, out)
  /\ runState (F3 0.25) out = (19.0 / 4.0, out).
Proof. repeat split. Qed.

End ExactValues.

(** * [Phi] on the diagonal *)

Section PhiDiagonal.
Import Ffunctions Binary64.
Context {L : Libm}.

Lemma phi_uv_1_1 : phi_uv 1 1 = 2.343907238689459.
Proof. reflexivity. Qed.

(** C8 (amended).  For every finite [x > 0] both ratios are exactly 1,
    the discriminant is -3 and [phi_uv] returns the constant
    2.343907238689459 of the fully degenerate branch of [phi_neg];
    [Phi x x x] is that constant times [x] times the discriminant over
    2, i.e. about [-3.5159 * x], and is not a NaN. *)
Theorem Phi_diagonal (x : float) :
  (0 <? x) = true -> (x <? infinity) = true ->
  Phi x x x = 2.343907238689459 * x * (-3) / 2
  /\ PrimFloat.is_nan (Phi x x x) = false.
Proof.
  intros H0 Hi. destruct (positive_finite x H0 Hi) as (m & e & Hx).
  assert (E : Phi x x x = 2.343907238689459 * x * (-3) / 2).
  { unfold Phi. rewrite sort3_diag, div_self by eauto.
    rewrite phi_uv_1_1. reflexivity. }
  split; [exact E|]. rewrite E. apply is_nan_spec.
  rewrite div_spec, !mul_spec, Hx, Prim2SF_2.
  change (Prim2SF (-3)) with (S754_finite true 6755399441055744 (-51)).
  apply SF64div_finite_not_nan, SF64mul_finite_not_nan, SF64mul_finite_not_nan.
  discriminate.
Qed.

End PhiDiagonal.

Lemma Phi_diagonal_at_2 :
  Ffunctions.Phi (L := coarse_libm) 2 2 2 = 2.343907238689459 * 2 * (-3) / 2
  /\ PrimFloat.is_nan (Ffunctions.Phi (L := coarse_libm) 2 2 2) = false.
Proof. apply (Phi_diagonal (L := coarse_libm) 2); reflexivity. Defined.

(** C8 as stated fails: for every implementation of the external
    routines [Phi 1 1 1] is the constant times -3/2, a negative number,
    not the constant itself. *)
Lemma Phi_1_1_1_value :
  ((0 <? 1) = true /\ (1 <? infinity) = true)
  /\ (forall L : Libm, Ffunctions.Phi 1 1 1 = -3.5158608580341886)
  /\ (-3.5158608580341886 =? 2.343907238689459 * 1) = false
  /\ (-3.5158608580341886 <? 0) = true.
Proof. repeat split. Qed.

(** * The integral-based fallback of the older copy *)

Section Fallback.
Context {L : Libm}.
Variable odeint_integrate :
  (float -> float -> float) -> float -> float -> float -> float -> option float.

(** C10.  [Gn] returns the quiet NaN for every input, whether the
    integration converges or throws: its result is never assigned to
    [res]. *)
Theorem Gn_is_NaN (wa wb : float) (n : Z) :
  FfunctionsOld.Gn odeint_integrate wa wb n = quiet_NaN
  /\ PrimFloat.is_nan (FfunctionsOld.Gn odeint_integrate wa wb n) = true.
Proof.
  unfold FfunctionsOld.Gn.
  destruct (FfunctionsOld.integrate _ _ _ _ _); split; reflexivity.
Qed.

End Fallback.

(** * Beyond the specification

    Properties of the code that the specification does not state. *)

(** rewrite away every operation that has a NaN operand *)
Ltac nan_absorb :=
  repeat first
    [ rewrite Binary64.nan_mul_l | rewrite Binary64.nan_mul_r
    | rewrite Binary64.nan_div_l | rewrite Binary64.nan_div_r
    | rewrite Binary64.nan_add_l | rewrite Binary64.nan_add_r
    | rewrite Binary64.nan_sub_l | rewrite Binary64.nan_sub_r ].



(** evaluate a state computation, taking every branch *)
Ltac run_branches :=
  cbn [bind ret Monad_state runState];
  repeat match goal with
  | |- context [if ?c then _ else _] => destruct c
  | |- context [let '(_, _) := ?p in _] => destruct p
  end;
  reflexivity.

(** ** The sorting networks *)

Section Sorting.
Import Ffunctions Binary64.



Section NonNegative.
Variables x y z : float.
Hypothesis Hx : nonneg x = true.
Hypothesis Hy : nonneg y = true.
Hypothesis Hz : nonneg z = true.

Ltac order3 :=
  destruct (ltb_cases x y Hx Hy), (ltb_cases y z Hy Hz),
           (ltb_cases x z Hx Hz);
  subst; unfold sort3, gtb; rewrite_ltb; try reflexivity;
  exfalso; ltb_saturate ltb_trans.

Lemma sort3_swap12 : sort3 y x z = sort3 x y z.
Proof. order3. Qed.

Lemma sort3_swap23 : sort3 x z y = sort3 x y z.
Proof. order3. Qed.

End NonNegative.
End Sorting.


(** ** The tolerance comparisons *)

Section Tolerance.
Import Ffunctions Binary64.


End Tolerance.

(** ** The diagnostic stream on admissible arguments *)

Section Silent.
Import Ffunctions Binary64.
Context {L : Libm}.

Lemma f_PS_silent w out :
  (w <? 0) = false -> snd (runState (f_PS w) out) = out.
Proof.
  intros Hw. unfold f_PS. change (w <? 0.0) with (w <? 0). rewrite Hw.
  run_branches.
Qed.

(** X5.  When no argument is negative (a NaN is not), none of [Fa],
    [Fb], [f_PS], [f_S], [f_sferm], [F1], [F1t], [F2] and [F3] writes to
    the diagnostic stream: the stream after the call is the stream
    before it, also for the functions that call [f_PS]. *)
Theorem nonnegative_argument_silent (w x y : float) (out : list string) :
  (w <? 0) = false -> (x <? 0) || (y <? 0) = false ->
  snd (runState (Fa x y) out) = out
  /\ snd (runState (Fb x y) out) = out
  /\ snd (runState (f_PS w) out) = out
  /\ snd (runState (f_S w) out) = out
  /\ snd (runState (f_sferm w) out) = out
  /\ snd (runState (F1 w) out) = out
  /\ snd (runState (F1t w) out) = out
  /\ snd (runState (F2 w) out) = out
  /\ snd (runState (F3 w) out) = out.
Proof.
  intros Hw Hxy. pose proof (f_PS_silent w out Hw) as HP.
  assert (HB : forall (g : float -> float),
             snd (runState (fps <- f_PS w ;; ret (g fps)) out) = out).
  { intros g. cbn [bind ret Monad_state runState].
    destruct (runState (f_PS w) out) as [v out']. exact HP. }
  unfold Fa, Fb, f_S, f_sferm, F1, F1t, F2, F3.
  change (w <? 0.0) with (w <? 0). rewrite Hw, Hxy.
  repeat split; try exact HP;
    try apply (HB (fun fps => 0.5 * fps));
    try run_branches;
    repeat match goal with
    | |- context [if ?c then _ else _] => destruct c; [reflexivity|]
    end.
  - apply (HB (fun fps => (2 * w - 1) * fps - 2 * w * (2 + log w))).
  - apply (HB (fun fps => 0.5 * w * (2 + log w - fps))).
  - apply (HB (fun fps => (w - 0.5) * fps - w * (2 + log w))).
  - apply (HB (fun fps => 1 + 0.5 * (log w - fps))).
  - apply (HB (fun fps =>
                 (0.5 + 7.5 * w) * (2 + log w) + (4.25 - 7.5 * w) * fps)).
Qed.

(** X6.  At a zero argument (+0 or -0) [f_PS], [f_S], [f_sferm], [F1]
    and [F1t] return 0; [F2] and [F3] have no branch for zero and
    return minus infinity, from the pole of the logarithm.  Nothing is
    written to the diagnostic stream. *)
Theorem f_PS_family_at_zero (w : float) (out : list string) :
  (w =? 0) = true ->
  runState (f_PS w) out = (0, out)
  /\ runState (f_S w) out = (0, out)
  /\ runState (f_sferm w) out = (0, out)
  /\ runState (F1 w) out = (0, out)
  /\ runState (F1t w) out = (0, out)
  /\ runState (F2 w) out = (neg_infinity, out)
  /\ runState (F3 w) out = (neg_infinity, out).
Proof.
  intros H. destruct (eqb_0_cases w H); subst.
  - repeat split; cbv -[log dilog]; rewrite log_zero; reflexivity.
  - repeat split; cbv -[log dilog]; rewrite log_neg_zero; reflexivity.
Qed.

End Silent.

Lemma nonnegative_argument_silent_at_1_2 :
  snd (runState (Ffunctions.Fa (L := coarse_libm) 1 2) []) = []
  /\ snd (runState (Ffunctions.F3 (L := coarse_libm) 1) []) = [].
Proof.
  pose proof (nonnegative_argument_silent (L := coarse_libm)
                1 1 2 [] eq_refl eq_refl) as H.
  split; [exact (proj1 H)|].
  exact (proj2 (proj2 (proj2 (proj2 (proj2 (proj2 (proj2 (proj2 H)))))))).
Defined.

Lemma f_PS_family_at_zero_at_neg_zero :
  runState (Ffunctions.f_S (L := coarse_libm) neg_zero) [] = (0, [])
  /\ runState (Ffunctions.F2 (L := coarse_libm) neg_zero) []
     = (neg_infinity, []).
Proof.
  pose proof (f_PS_family_at_zero (L := coarse_libm) neg_zero [] eq_refl)
    as H.
  split; [exact (proj1 (proj2 H))|].
  exact (proj1 (proj2 (proj2 (proj2 (proj2 (proj2 H)))))).
Defined.

(** ** [Fa] and [Fb] across the two revisions *)

Section Revisions.
Import Ffunctions.
Context {L : Libm}.


End Revisions.


(** ** [Iabc] *)

Section IabcProperties.
Import Ffunctions Binary64.
Context {L : Libm}.



Lemma nonneg_sqr a : PrimFloat.is_nan a = false -> nonneg (sqr a) = true.
Proof.
  rewrite is_nan_spec. intros H. apply nonneg_of_spec.
  unfold sqr. rewrite mul_spec. now apply SF64mul_self_nonneg.
Qed.

(** a non-negative double that [is_zero] rejects is positive, and a
    finite number when it is below infinity *)
Lemma nonneg_not_small_positive z p :
  nonneg z = true -> is_zero 0 p = true -> is_zero z p = false ->
  (0 <? z) = true.
Proof.
  intros Hz H0 Hs. apply nonneg_spec in Hz.
  rewrite is_zero_spec in H0, Hs. rewrite ltb_spec.
  rewrite Prim2SF_0 in *.
  destruct (Prim2SF z) as [[]|[]| |[] m e]; try contradiction; auto.
  congruence.
Qed.

Lemma nonneg_not_small_finite z p :
  nonneg z = true -> is_zero 0 p = true -> is_zero z p = false ->
  (z <? infinity) = true ->
  exists m e, Prim2SF z = S754_finite false m e.
Proof.
  intros Hz H0 Hs Hi. apply nonneg_spec in Hz.
  rewrite is_zero_spec in H0, Hs. rewrite ltb_spec in Hi.
  rewrite Prim2SF_0 in H0.
  destruct (Prim2SF z) as [[]|[]| |[] m e]; try contradiction; eauto.
  - congruence.
  - discriminate.
Qed.

Lemma Ixyz_swap12 x y z :
  nonneg x = true -> nonneg y = true -> nonneg z = true ->
  Ixyz y x z = Ixyz x y z.
Proof. intros. unfold Ixyz. now rewrite sort3_swap12. Qed.

Lemma Ixyz_swap23 x y z :
  nonneg x = true -> nonneg y = true -> nonneg z = true ->
  Ixyz x z y = Ixyz x y z.
Proof. intros. unfold Ixyz. now rewrite sort3_swap23. Qed.

Lemma Ixy_1_1 : Ixy 1 1 = 0.5.
Proof. reflexivity. Qed.

Lemma Ixy_0_0 : Ixy 0 0 = 0.
Proof. reflexivity. Qed.

Lemma Ixyz_0_0 z : nonneg z = true -> Ixyz 0 0 z = 0.
Proof.
  intros Hz. unfold Ixyz.
  assert (E : sort3 0 0 z = (0, 0, z)).
  { unfold sort3, gtb.
    destruct (ltb_cases 0 z eq_refl Hz) as [H1 H2|E H|H1 H2].
    - change (0 <? 0) with false. cbv iota beta. now rewrite H2.
    - now subst.
    - exfalso. apply nonneg_spec in Hz. rewrite ltb_spec, Prim2SF_0 in H1.
      now destruct (Prim2SF z) as [[]|[]| |[] m e]. }
  rewrite E. destruct (is_zero z eps) eqn:Hs; [reflexivity|].
  pose proof (nonneg_not_small_positive z eps Hz eq_refl Hs) as Hp.
  destruct (zero_div_positive z Hp) as [E0 _].
  now rewrite E0, Ixy_0_0.
Qed.


Lemma Ixy_0_1 : Ixy 0 1 = 1.
Proof. reflexivity. Qed.

Lemma sort3_0_diag z : nonneg z = true -> sort3 0 z z = (0, z, z).
Proof.
  intros Hz. unfold sort3, gtb.
  assert (H : (z <? 0) = false).
  { apply nonneg_spec in Hz. rewrite ltb_spec, Prim2SF_0.
    now destruct (Prim2SF z) as [[]|[]| |[] m e]. }
  rewrite H. cbv iota beta. rewrite ltb_irrefl_any. cbv iota beta.
  now rewrite H.
Qed.

(** X9.  With three equal arguments [Iabc] is one half over the
    square, and with one argument zero and the other two equal it is
    one over the square: the values of the integral at coinciding
    masses, provided the square [a * a] is finite and not approximately
    zero.  Neither value depends on the external routines. *)
Theorem Iabc_diagonal (a : float) :
  is_zero (a * a) eps = false -> (a * a <? infinity) = true ->
  Iabc a a a = 0.5 / (a * a)
  /\ Iabc 0 a a = 1 / (a * a).
Proof.
  intros Hs Hi.
  assert (Na : PrimFloat.is_nan a = false).
  { destruct (PrimFloat.is_nan a) eqn:E; [|reflexivity].
    apply is_nan_true in E. subst. discriminate. }
  pose proof (nonneg_sqr a Na) as Hn.
  destruct (nonneg_not_small_finite (a * a) eps Hn eq_refl Hs Hi)
    as (m & e & Hz).
  pose proof (nonneg_not_small_positive (a * a) eps Hn eq_refl Hs) as Hp.
  unfold Iabc, Ixyz. change (sqr 0) with 0. unfold sqr in *. split.
  - rewrite sort3_diag, Hs, div_self by eauto. now rewrite Ixy_1_1.
  - rewrite (sort3_0_diag _ Hn), Hs, div_self by eauto.
    destruct (zero_div_positive _ Hp) as [E0 _].
    now rewrite E0, Ixy_0_1.
Qed.

(** X10.  When two of the arguments are zero [Iabc] returns exactly 0,
    whatever the third argument is (a NaN apart) and wherever it
    stands. *)
Theorem Iabc_two_zeros (c : float) :
  PrimFloat.is_nan c = false ->
  Iabc 0 0 c = 0 /\ Iabc 0 c 0 = 0 /\ Iabc c 0 0 = 0.
Proof.
  intros Nc. pose proof (nonneg_sqr c Nc) as Hc.
  assert (E : Iabc 0 0 c = 0).
  { unfold Iabc. change (sqr 0) with 0. now apply Ixyz_0_0. }
  unfold Iabc in *. change (sqr 0) with 0 in *.
  repeat split; auto.
  - rewrite Ixyz_swap23; auto.
  - rewrite Ixyz_swap12, Ixyz_swap23; auto.
Qed.

End IabcProperties.


Lemma Iabc_diagonal_at_2 :
  Ffunctions.Iabc (L := coarse_libm) 2 2 2 = 0.5 / (2 * 2)
  /\ Ffunctions.Iabc (L := coarse_libm) 0 2 2 = 1 / (2 * 2).
Proof. apply (Iabc_diagonal (L := coarse_libm) 2); reflexivity. Defined.

Lemma Iabc_two_zeros_at_3 :
  Ffunctions.Iabc (L := coarse_libm) 0 0 3 = 0
  /\ Ffunctions.Iabc (L := coarse_libm) 0 3 0 = 0
  /\ Ffunctions.Iabc (L := coarse_libm) 3 0 0 = 0.
Proof. apply (Iabc_two_zeros (L := coarse_libm) 3); reflexivity. Defined.

(** ** NaN arguments *)

Section NaNArguments.
Import Ffunctions Binary64.
Context {L : Libm}.

Lemma is_zero_nan p : is_zero nan p = false.
Proof. apply nan_abs_ltb. Qed.

Lemma is_equal_nan_l b p : is_equal nan b p = false.
Proof. unfold is_equal, is_zero. rewrite nan_sub_l. apply nan_abs_ltb. Qed.

Lemma lambda_2_nan u v : lambda_2 nan v = nan /\ lambda_2 u nan = nan.
Proof. unfold lambda_2, sqr. split; now nan_absorb. Qed.

Lemma Phi_tail_nan p z u v :
  u = nan \/ v = nan -> p * z * lambda_2 u v / 2 = nan.
Proof.
  intros [E|E]; subst.
  - rewrite (proj1 (lambda_2_nan 0 v)). now nan_absorb.
  - rewrite (proj2 (lambda_2_nan u 0)). now nan_absorb.
Qed.

(** X15.  A NaN argument is never turned into a number by the ten
    one-argument form factors, nor by [Phi] in any of its three
    positions: the result is a NaN whatever the external routines
    return.  [Fa] and [Iabc] give no such guarantee: a zero in the
    right place hides the NaN ([Fa] of NaN and 0 is 0, [Iabc] of NaN, 0
    and 0 is 0), while the other order of the same arguments gives a
    NaN. *)
Theorem NaN_propagates (n x y : float) (out : list string) :
  PrimFloat.is_nan n = true ->
  (F1C n = nan /\ F2C n = nan /\ F3C n = nan /\ F4C n = nan
   /\ F1N n = nan /\ F2N n = nan /\ F3N n = nan /\ F4N n = nan
   /\ G3 n = nan /\ G4 n = nan)
  /\ (Phi n x y = nan /\ Phi x n y = nan /\ Phi x y n = nan)
  /\ (runState (Fa n 0) out = (0, out)
      /\ runState (Fa 0 n) out = (nan, out)
      /\ Iabc n 0 0 = 0 /\ Iabc 0 0 n = nan).
Proof.
  intros N. apply is_nan_true in N. subst n.
  assert (G : G3 nan = nan).
  { unfold G3. rewrite is_equal_nan_l. unfold pow3. now nan_absorb. }
  split; [|split].
  - unfold F1C, F2C, F3C, F4C, F1N, F2N, F3N, F4N, G4.
    rewrite !is_zero_nan, !is_equal_nan_l. cbv zeta.
    unfold pow4, pow3, sqr.
    repeat split; try exact G; now nan_absorb.
  - unfold Phi, sort3, gtb.
    repeat split;
      repeat match goal with
      | |- context [if ?c then _ else _] => destruct c; cbv iota beta
      end;
      apply Phi_tail_nan; nan_absorb; auto.
  - repeat split.
    + assert (E : runState (Fa 0 nan) out
                  = (- (G3 0 - G3 nan) / (0 - nan), out)) by reflexivity.
      rewrite E, G. now nan_absorb.
    + assert (E : Iabc 0 0 nan = Ixy (0 / nan) (0 / nan) / nan)
        by reflexivity.
      rewrite E. now nan_absorb.
Qed.

End NaNArguments.

Lemma NaN_propagates_at_nan :
  Ffunctions.F1C (L := coarse_libm) nan = nan
  /\ Ffunctions.Phi (L := coarse_libm) 1 nan 2 = nan
  /\ Ffunctions.Iabc (L := coarse_libm) nan 0 0 = 0.
Proof.
  pose proof (NaN_propagates (L := coarse_libm) nan 1 2 [] eq_refl) as H.
  split; [exact (proj1 (proj1 H))|split].
  - exact (proj1 (proj2 (proj1 (proj2 H)))).
  - exact (proj1 (proj2 (proj2 (proj2 (proj2 H))))).
Defined.

(** ** The Kallen function of three squared masses *)

Section Kallen.
Import Ffunctions Binary64.

(** X11.  The three-argument [lambda_2] divides by its last argument:
    when that argument is zero (+0 or -0) the result is a NaN for all
    [x] and [y], and not the square of [x - y]. *)
Theorem lambda_2_xyz_zero (x y z : float) :
  (z =? 0) = true -> lambda_2_xyz x y z = nan.
Proof.
  intros Hz. rewrite eqb_spec, Prim2SF_0 in Hz.
  apply Prim2SF_inj. unfold lambda_2_xyz.
  rewrite !mul_spec, lambda_2_spec, !div_spec.
  destruct (Prim2SF z) as [s|[]| |[] m e]; try discriminate.
  apply SFlambda_2_zero_divisor.
Qed.

End Kallen.

Lemma lambda_2_xyz_zero_at_1_2_0 : Ffunctions.lambda_2_xyz 1 2 0 = nan.
Proof. apply (lambda_2_xyz_zero 1 2 0). reflexivity. Defined.

(** ** The two-loop contributions of the general THDM *)

Section Threshold.
Import Ffunctions Binary64 TwoLoopF.
Context {L : Libm}.

Lemma phi_uv_quarter : phi_uv 0.25 0.25 = 0.
Proof. reflexivity. Qed.

Lemma Phi_threshold ms2 mf2 :
  (mf2 <? ms2) = true -> mf2 / ms2 = 0.25 ->
  Phi ms2 mf2 mf2 = 0 * ms2 * 0 / 2.
Proof.
  intros Hlt Hq. unfold Phi, sort3, gtb.
  rewrite Hlt. cbv iota beta. rewrite Hlt. cbv iota beta.
  rewrite ltb_irrefl_any. cbv iota beta.
  rewrite Hq, phi_uv_quarter. reflexivity.
Qed.

(** X12.  At the threshold, where the fermion mass squared is a quarter
    of the scalar mass squared and [ms2 - 4 * mf2] is zero, [FA] and
    [FS] return a NaN: [Phi] takes the branch of the vanishing
    discriminant and returns zero, which [FA] and [FS] divide by the
    zero [ms2 - 4 * mf2]. *)
Theorem FA_FS_threshold (ms2 mf2 : float) :
  (mf2 <? ms2) = true -> mf2 / ms2 = 0.25 -> (ms2 - 4 * mf2 =? 0) = true ->
  FA ms2 mf2 = nan /\ FS ms2 mf2 = nan.
Proof.
  intros Hlt Hq HD. rewrite eqb_spec, Prim2SF_0 in HD.
  assert (E : forall b, b * Phi ms2 mf2 mf2 / (ms2 - 4 * mf2) = nan).
  { intros b. rewrite (Phi_threshold _ _ Hlt Hq).
    apply Prim2SF_inj. rewrite div_spec, mul_spec, div_spec, !mul_spec.
    rewrite Prim2SF_0. now apply SFthreshold_quotient. }
  split.
  - unfold FA. rewrite <- (E 1). f_equal.
    rewrite (Phi_threshold _ _ Hlt Hq).
    apply Prim2SF_inj. rewrite !mul_spec, !div_spec, !mul_spec.
    rewrite Prim2SF_0.
    now destruct (Prim2SF ms2) as [[]|[]| |[] m e].
  - unfold FS. rewrite E. apply nan_sub_r.
Qed.

End Threshold.

Lemma FA_FS_threshold_at_4_1 :
  TwoLoopF.FA (L := coarse_libm) 4 1 = nan
  /\ TwoLoopF.FS (L := coarse_libm) 4 1 = nan.
Proof. apply (FA_FS_threshold (L := coarse_libm) 4 1); reflexivity. Defined.

Section Placeholders.
Import Binary64.
Context {L : Libm}.

Lemma TwoLoopB_undefined_mixing u w al mm2 mz2 :
  TwoLoopB.fb u w al nan = nan
  /\ TwoLoopB.YF1 u w nan = nan
  /\ TwoLoopB.Fm0 u w al nan mm2 mz2 = nan.
Proof.
  unfold TwoLoopB.Fm0, TwoLoopB.YF1, TwoLoopB.fb. cbv zeta.
  repeat split; now nan_absorb.
Qed.

(** X13.  [amu2L_B_Yuk] returns a NaN, for every implementation of the
    external routines: its parameters are the constants of the source,
    the squared W and Z masses are both 0.0, and [cw2 = mw2 / mz2] is
    0/0.  [fb], [YF1] and [Fm0] are NaN whenever [cw2] is. *)
Theorem amu2L_B_Yuk_is_NaN :
  TwoLoopB.amu2L_B_Yuk = nan
  /\ PrimFloat.is_nan TwoLoopB.amu2L_B_Yuk = true
  /\ (forall u w al mm2 mz2,
        TwoLoopB.fb u w al nan = nan
        /\ TwoLoopB.YF1 u w nan = nan
        /\ TwoLoopB.Fm0 u w al nan mm2 mz2 = nan).
Proof.
  assert (E : TwoLoopB.amu2L_B_Yuk = nan).
  { unfold TwoLoopB.amu2L_B_Yuk. cbv zeta. change (0.0 / 0.0) with nan.
    rewrite (proj1 (TwoLoopB_undefined_mixing _ _ _ 0 0)). now nan_absorb. }
  rewrite E. split; [reflexivity|split; [reflexivity|]].
  intros. apply TwoLoopB_undefined_mixing.
Qed.

Lemma fSgamma_default ms2 pars fS :
  TwoLoopF.fSgamma ms2 pars TwoLoopF.THDM_parameters_default fS = nan.
Proof.
  unfold TwoLoopF.fSgamma. cbv zeta.
  change (TwoLoopF.sqr (TwoLoopF.alpha TwoLoopF.THDM_parameters_default)
          * TwoLoopF.sqr (TwoLoopF.mm TwoLoopF.THDM_parameters_default)
          / (4 * TwoLoopF.sqr TwoLoopF.pi
             * TwoLoopF.sqr (TwoLoopF.mw TwoLoopF.THDM_parameters_default)
             * (1.0 - TwoLoopF.sqr (TwoLoopF.mw TwoLoopF.THDM_parameters_default)
                      / TwoLoopF.sqr
                          (TwoLoopF.mz TwoLoopF.THDM_parameters_default))))
    with nan.
  now nan_absorb.
Qed.

Lemma ffS_default ms2 pars fS :
  TwoLoopF.ffS ms2 pars TwoLoopF.THDM_parameters_default fS = nan.
Proof. unfold TwoLoopF.ffS. rewrite fSgamma_default. apply nan_add_l. Qed.

Lemma charged_default ms2 md2 mu2 qd qu :
  TwoLoopF.flHp ms2 md2 TwoLoopF.THDM_parameters_default = nan
  /\ TwoLoopF.fuHp ms2 md2 mu2 qd qu TwoLoopF.THDM_parameters_default = nan
  /\ TwoLoopF.fdHp ms2 md2 mu2 qd qu TwoLoopF.THDM_parameters_default = nan.
Proof.
  unfold TwoLoopF.flHp, TwoLoopF.fuHp, TwoLoopF.fdHp. cbv zeta.
  set (t := TwoLoopF.THDM_parameters_default).
  change (TwoLoopF.sqr (TwoLoopF.alpha t) * TwoLoopF.sqr (TwoLoopF.mm t)
          / (32 * TwoLoopF.sqr TwoLoopF.pi * TwoLoopF.sqr (TwoLoopF.mw t)
             * TwoLoopF.sqr
                 (1.0 - TwoLoopF.sqr (TwoLoopF.mw t)
                        / TwoLoopF.sqr (TwoLoopF.mz t))))
    with nan.
  repeat split; now nan_absorb.
Qed.

(** X14.  [amu2L_F] returns a NaN, for every implementation of the
    external routines: the model parameters are default-initialised,
    so [sw2 = 1.0 - mw2 / mz2] is 1 - 0/0, and [ffS], [flHp], [fuHp]
    and [fdHp] are NaN for all masses, charges and loop functions. *)
Theorem amu2L_F_is_NaN :
  TwoLoopF.amu2L_F = nan
  /\ PrimFloat.is_nan TwoLoopF.amu2L_F = true
  /\ (forall ms2 pars fS,
        TwoLoopF.ffS ms2 pars TwoLoopF.THDM_parameters_default fS = nan)
  /\ (forall ms2 md2 mu2 qd qu,
        TwoLoopF.flHp ms2 md2 TwoLoopF.THDM_parameters_default = nan
        /\ TwoLoopF.fuHp ms2 md2 mu2 qd qu TwoLoopF.THDM_parameters_default
           = nan
        /\ TwoLoopF.fdHp ms2 md2 mu2 qd qu TwoLoopF.THDM_parameters_default
           = nan).
Proof.
  assert (E : TwoLoopF.amu2L_F = nan).
  { unfold TwoLoopF.amu2L_F. cbv zeta. rewrite !ffS_default. now nan_absorb. }
  rewrite E. split; [reflexivity|split; [reflexivity|split]].
  - apply ffS_default.
  - apply charged_default.
Qed.

End Placeholders.
